(** * Unemployment dashboard: the loader/cleaner and the derived views

    A shallow embedding of [app.py].  The script is a sequence of pandas
    calls on one table; each call is embedded as a function on an explicit
    table value, and [load_data] is their composition in an error monad.

    Modelling conventions.
    - A Python [str] is a Rocq [string]; a character stands for the code
      point of the same number (0..255).
    - A table is a list of column labels and a list of rows; a cell a row
      does not have reads as null, as in a frame padded by the CSV reader.
    - The input of [load_data] is the frame [pd.read_csv] returns; the file
      system and the CSV tokenizer are outside the model.
    - A finite float64 value is the rational it denotes; comparisons and
      the maximum are exact on these.  What depends on the library's
      rounding or on where the script runs is a parameter: the parser of
      numeric text behind [pd.to_numeric], the float64 mean, the clock and
      the range of the Timestamp type. *)

From Stdlib Require Import List String Ascii Bool Arith ZArith QArith Lia.
From Stdlib Require Import Sorted Permutation.
Import ListNotations.

Local Close Scope Q_scope.
Local Open Scope string_scope.
Local Open Scope list_scope.
Local Open Scope nat_scope.

(** ** Strings *)

Module PyStr.

(** [str.isspace] on the code points below 256. *)
Definition isspace (c : ascii) : bool :=
  let n := nat_of_ascii c in
  ((9 <=? n) && (n <=? 13)) || ((28 <=? n) && (n <=? 32))
  || (n =? 133) || (n =? 160).

Fixpoint lstrip_chars (l : list ascii) : list ascii :=
  match l with
  | [] => []
  | c :: l' => if isspace c then lstrip_chars l' else l
  end.

(** [s.strip()]: whitespace removed at both ends. *)
Definition strip (s : string) : string :=
  string_of_list_ascii
    (rev (lstrip_chars (rev (lstrip_chars (list_ascii_of_string s))))).

(** [sub in s]: [sub] occurs in [s] as a contiguous substring. *)
Fixpoint contains (sub s : string) : bool :=
  String.prefix sub s
  || match s with
     | EmptyString => false
     | String _ s' => contains sub s'
     end.

(** [x in l] on a list of labels. *)
Definition mem (x : string) (l : list string) : bool :=
  existsb (String.eqb x) l.

End PyStr.

(** ** Cells and tables *)

Record date := mkDate { year : Z; month : Z; day : Z }.

(** A cell of a frame.  [NA] stands for every pandas null (NaN, None, NaT). *)
Inductive cell :=
| NA
| Str (s : string)
| Num (q : Q)
| Timestamp (d : date).

Definition isna (c : cell) : bool :=
  match c with NA => true | _ => false end.

Definition notna (c : cell) : bool := negb (isna c).

Record DataFrame := mkDF {
  columns : list string;
  rows : list (list cell)
}.

(** Exceptions the loader can raise, with their arguments. *)
Inductive exn :=
| KeyError (args : list string).

Inductive result (A : Type) :=
| Ok (a : A)
| Raise (e : exn).
Arguments Ok {A} a.
Arguments Raise {A} e.

Definition bind {A B} (m : result A) (k : A -> result B) : result B :=
  match m with
  | Ok a => k a
  | Raise e => Raise e
  end.

Notation "x <- m ;; k" := (bind m (fun x => k))
  (at level 61, m at next level, right associativity).

(** Position of the first column labelled [name]. *)
Fixpoint index_of (name : string) (cols : list string) : option nat :=
  match cols with
  | [] => None
  | c :: cs =>
      if String.eqb c name then Some 0%nat
      else option_map S (index_of name cs)
  end.

(** The cell of [row] under the column [name] of a frame with labels [cols]. *)
Definition cell_at (cols : list string) (name : string) (row : list cell) : cell :=
  match index_of name cols with
  | Some i => nth i row NA
  | None => NA
  end.

(** [df[name]] as the list of its values, top to bottom. *)
Definition series (df : DataFrame) (name : string) : list cell :=
  map (cell_at (columns df) name) (rows df).

(** Writing the cell at position [i], the row padded with nulls up to [i]. *)
Fixpoint set_nth (i : nat) (v : cell) (row : list cell) : list cell :=
  match i, row with
  | O, [] => [v]
  | O, _ :: t => v :: t
  | S i', [] => NA :: set_nth i' v []
  | S i', x :: t => x :: set_nth i' v t
  end.

(** [df[name] = df[name].map(f)] for a column that exists: the values of one
    column replaced in place, labels and order of columns unchanged. *)
Definition map_column (f : cell -> cell) (name : string) (df : DataFrame)
  : DataFrame :=
  match index_of name (columns df) with
  | Some i =>
      mkDF (columns df) (map (fun r => set_nth i (f (nth i r NA)) r) (rows df))
  | None => df
  end.

(** *** Header normalisation *)

(** [df.columns.duplicated()], keep = 'first': a label is flagged when an
    equal label stands to its left. *)
Fixpoint duplicated_from (seen cols : list string) : list bool :=
  match cols with
  | [] => []
  | c :: cs => PyStr.mem c seen :: duplicated_from (c :: seen) cs
  end.

Definition duplicated (cols : list string) : list bool :=
  duplicated_from [] cols.

(** Selection by a boolean mask, position by position. *)
Fixpoint loc_mask {A} (keep : list bool) (l : list A) : list A :=
  match keep, l with
  | k :: ks, x :: xs => if k then x :: loc_mask ks xs else loc_mask ks xs
  | _, _ => []
  end.

(** [df.loc[:, keep]]. *)
Definition loc_columns (keep : list bool) (df : DataFrame) : DataFrame :=
  mkDF (loc_mask keep (columns df)) (map (loc_mask keep) (rows df)).

(** [df.rename(columns={old: new})]: every label equal to [old] becomes [new]. *)
Definition rename_labels (old new : string) (cols : list string) : list string :=
  map (fun c => if String.eqb c old then new else c) cols.

Definition rename (old new : string) (df : DataFrame) : DataFrame :=
  mkDF (rename_labels old new (columns df)) (rows df).

Definition target : string := "Estimated Unemployment Rate (%)".

(** The list comprehension [[c for c in df.columns if "Unemployment Rate" in c]]. *)
Definition matches (cols : list string) : list string :=
  filter (PyStr.contains "Unemployment Rate") cols.

(** Lines 24-29: give the unemployment column a stable name. *)
Definition stable_rate_name (df : DataFrame) : result DataFrame :=
  if negb (PyStr.mem target (columns df)) then
    match matches (columns df) with
    | [] => Raise (KeyError ["Unemployment column not found in CSV"])
    | m :: _ => Ok (rename m target df)
    end
  else Ok df.

(** *** Dates: [pd.to_datetime(..., format="%d-%m-%Y", errors="coerce")] *)

Module Strptime.

Definition code (c : ascii) : nat := nat_of_ascii c.

Definition between (lo hi : ascii) (c : ascii) : bool :=
  (code lo <=? code c) && (code c <=? code hi).

Definition char (x : ascii) (c : ascii) : bool := Ascii.eqb x c.

Definition isdigit : ascii -> bool := between "0" "9".

(** [int] of one character of a matched group; the blank of [" 5"] counts 0. *)
Definition val (c : ascii) : Z :=
  if isdigit c then Z.of_nat (code c - 48) else 0%Z.

(** A regex branch of one character, and one of two characters: the parsed
    number and the rest of the input, or no match. *)
Definition one (p : ascii -> bool) (s : list ascii) : list (Z * list ascii) :=
  match s with
  | a :: rest => if p a then [(val a, rest)] else []
  | _ => []
  end.

Definition two (p1 p2 : ascii -> bool) (s : list ascii)
  : list (Z * list ascii) :=
  match s with
  | a :: b :: rest =>
      if p1 a && p2 b then [(10 * val a + val b, rest)%Z] else []
  | _ => []
  end.

(** The directives as the regular expressions strptime compiles them to;
    the branches of an alternation are tried from left to right.
    %d is [3[0-1]|[1-2]\d|0[1-9]|[1-9]| [1-9]]. *)
Definition directive_d (s : list ascii) : list (Z * list ascii) :=
  two (char "3") (between "0" "1") s
  ++ two (between "1" "2") isdigit s
  ++ two (char "0") (between "1" "9") s
  ++ one (between "1" "9") s
  ++ two (char " ") (between "1" "9") s.

(** %m is [1[0-2]|0[1-9]|[1-9]]. *)
Definition directive_m (s : list ascii) : list (Z * list ascii) :=
  two (char "1") (between "0" "2") s
  ++ two (char "0") (between "1" "9") s
  ++ one (between "1" "9") s.

(** %Y is [\d\d\d\d]. *)
Definition directive_Y (s : list ascii) : list (Z * list ascii) :=
  match s with
  | a :: b :: c :: d :: rest =>
      if isdigit a && isdigit b && isdigit c && isdigit d
      then [(1000 * val a + 100 * val b + 10 * val c + val d, rest)%Z]
      else []
  | _ => []
  end.

Definition literal (x : ascii) (s : list ascii) : list (list ascii) :=
  match s with
  | a :: rest => if char x a then [rest] else []
  | [] => []
  end.

(** All the ways the pattern of "%d-%m-%Y" matches a prefix of [s], in the
    order a backtracking matcher finds them: day, month, year, unconsumed
    input. *)
Definition regex_matches (s : list ascii) : list (Z * Z * Z * list ascii) :=
  flat_map (fun '(d, s1) =>
    flat_map (fun s2 =>
      flat_map (fun '(m, s3) =>
        flat_map (fun s4 =>
          map (fun '(y, s5) => (d, m, y, s5)) (directive_Y s4))
          (literal "-" s3))
        (directive_m s2))
      (literal "-" s1))
    (directive_d s).

Definition is_leap (y : Z) : bool :=
  ((y mod 4 =? 0) && negb (y mod 100 =? 0) || (y mod 400 =? 0))%Z.

Definition days_in_month (y m : Z) : Z :=
  (if m =? 2 then (if is_leap y then 29 else 28)
   else if (m =? 4) || (m =? 6) || (m =? 9) || (m =? 11) then 30
   else 31)%Z.

(** [datetime.date(y, m, d)] accepts the triple. *)
Definition valid_date (y m d : Z) : bool :=
  ((1 <=? y) && (y <=? 9999) && (1 <=? m) && (m <=? 12)
   && (1 <=? d) && (d <=? days_in_month y m))%Z.

(** One value against the format, [exact=True]: the first match must consume
    the whole string and name a calendar date. *)
Definition match_format (s : string) : option date :=
  match regex_matches (list_ascii_of_string s) with
  | (d, m, y, rest) :: _ =>
      match rest with
      | [] => if valid_date y m d then Some (mkDate y m d) else None
      | _ :: _ => None
      end
  | [] => None
  end.

(** The parsed date must fit the Timestamp type; [in_bounds] tells which
    dates do.  A date that does not fit is an error, like a mismatch. *)
Definition strptime (in_bounds : date -> bool) (s : string) : option date :=
  match match_format s with
  | Some d => if in_bounds d then Some d else None
  | None => None
  end.

(** The midnights a nanosecond Timestamp holds: 1677-09-22 to 2262-04-11.
    Every unit of datetime64 holds at least these. *)
Definition ns_range (d : date) : bool :=
  let key := (year d * 10000 + month d * 100 + day d)%Z in
  ((16770922 <=? key) && (key <=? 22620411))%Z.

End Strptime.

(** What the loader takes from where it runs: the day the clock shows when
    line 32 is evaluated, and the dates the Timestamp type of the installed
    pandas holds (the nanosecond range at least). *)
Record pandas := mkPandas {
  clock : date;
  clock_valid :
    Strptime.valid_date (year clock) (month clock) (day clock) = true;
  in_bounds : date -> bool;
  in_bounds_ns : forall d, Strptime.ns_range d = true -> in_bounds d = true
}.

(** Days from 1970-01-01 to a calendar date. *)
Definition days_from_epoch (dt : date) : Z :=
  (let y := if month dt <=? 2 then year dt - 1 else year dt in
   let era := y / 400 in
   let yoe := y - era * 400 in
   let mp := if month dt <=? 2 then month dt + 9 else month dt - 3 in
   let doy := (153 * mp + 2) / 5 + day dt - 1 in
   let doe := yoe * 365 + yoe / 4 - yoe / 100 + doy in
   era * 146097 + doe - 719468)%Z.

(** One element of [pd.to_datetime(col, format="%d-%m-%Y", errors="coerce")].
    The texts "now" and "today" are read as the time of the run, format or
    no format; any other text goes against the format.  A number is matched
    through its [str], which has no two hyphens between digit groups, so it
    never matches.  A Timestamp is modelled by its calendar day. *)
Definition to_datetime (env : pandas) (c : cell) : cell :=
  match c with
  | NA => NA
  | Str s =>
      if String.eqb s "now" || String.eqb s "today" then
        Timestamp (clock env)
      else
        match Strptime.strptime (in_bounds env) s with
        | Some d => Timestamp d
        | None => NA
        end
  | Num _ => NA
  | Timestamp d => Timestamp d
  end.

(** A plain decimal literal, sign and fraction optional: one parser of
    numeric text, used where a concrete one is needed. *)
Module Decimal.

Fixpoint digits (acc : Z) (l : list ascii) : option Z :=
  match l with
  | [] => Some acc
  | c :: l' =>
      if Strptime.isdigit c then digits (10 * acc + Strptime.val c)%Z l'
      else None
  end.

Fixpoint split_dot (l : list ascii) : list ascii * option (list ascii) :=
  match l with
  | [] => ([], None)
  | c :: l' =>
      if Ascii.eqb c "." then ([], Some l')
      else let '(a, b) := split_dot l' in (c :: a, b)
  end.

Definition unsigned (l : list ascii) : option Q :=
  let '(ip, fp) := split_dot l in
  let fp := match fp with Some f => f | None => [] end in
  match ip ++ fp with
  | [] => None
  | _ :: _ =>
      match digits 0 (ip ++ fp) with
      | Some n => Some (Qmake n (Z.to_pos (10 ^ Z.of_nat (List.length fp))))
      | None => None
      end
  end.

Definition parse (s : string) : option Q :=
  match list_ascii_of_string s with
  | "-"%char :: l => option_map Qopp (unsigned l)
  | "+"%char :: l => unsigned l
  | l => unsigned l
  end.

End Decimal.

(** ** The loader *)

(** [df.columns = labels], for as many labels as the frame has columns. *)
Definition set_columns (labels : list string) (df : DataFrame) : DataFrame :=
  mkDF labels (rows df).

(** [df[name]]: the values of a column, or KeyError. *)
Definition getitem (df : DataFrame) (name : string) : result (list cell) :=
  if PyStr.mem name (columns df) then Ok (series df name)
  else Raise (KeyError [name]).

(** [df[name] = vals], [vals] aligned with the rows: the column is replaced
    in place when it exists and appended otherwise. *)
Definition setitem (df : DataFrame) (name : string) (vals : list cell)
  : DataFrame :=
  match index_of name (columns df) with
  | Some i =>
      mkDF (columns df)
           (map (fun '(r, v) => set_nth i v r) (combine (rows df) vals))
  | None =>
      mkDF (columns df ++ [name])
           (map (fun '(r, v) => set_nth (List.length (columns df)) v r)
                (combine (rows df) vals))
  end.

(** The rows [df.dropna(subset=...)] keeps: no null under any listed column. *)
Definition complete (cols subset : list string) (row : list cell) : bool :=
  forallb (fun c => notna (cell_at cols c row)) subset.

(** [df.dropna(subset=subset)]; labels that are not columns raise KeyError. *)
Definition dropna (subset : list string) (df : DataFrame) : result DataFrame :=
  match filter (fun c => negb (PyStr.mem c (columns df))) subset with
  | [] => Ok (mkDF (columns df)
                   (filter (complete (columns df) subset) (rows df)))
  | missing => Raise (KeyError missing)
  end.

(** [df.reset_index(drop=True)]: rows are addressed by position in this
    model, so renumbering them changes nothing. *)
Definition reset_index (df : DataFrame) : DataFrame := df.

Section Loader.

Variable env : pandas.

(** The parser of numeric text behind [pd.to_numeric]: the float a string
    denotes, if it denotes one. *)
Variable parse_float : string -> option Q.

(** One element of [pd.to_numeric(col, errors="coerce")]. *)
Definition to_numeric (c : cell) : cell :=
  match c with
  | NA => NA
  | Num q => Num q
  | Str s =>
      match parse_float s with
      | Some q => Num q
      | None => NA
      end
  | Timestamp d => Num (inject_Z (days_from_epoch d * 86400000000000))
  end.

(** Lines 12-40 (and, word for word, the fallback of lines 43-61), applied
    to the frame [pd.read_csv] returned. *)
Definition load_data (raw : DataFrame) : result DataFrame :=
  let df := set_columns (map PyStr.strip (columns raw)) raw in
  let df := loc_columns (map negb (duplicated (columns df))) df in
  df <- stable_rate_name df ;;
  date <- getitem df "Date" ;;
  let df := setitem df "Date" (map (to_datetime env) date) in
  df <- dropna ["Region"; "Date"] df ;;
  rate <- getitem df target ;;
  let df := setitem df target (map to_numeric rate) in
  Ok (reset_index df).

End Loader.

(** *** Memoisation: [@st.cache_data] on a function of no argument *)

(** What a process holds between two evaluations of the script: the input
    file as the reader parses it, the cache entry of [load_data], and the
    number of times the file has been read. *)
Record session := mkSession {
  file : DataFrame;
  cache : option DataFrame;
  reads : nat
}.

Definition read_csv (s : session) : DataFrame * session :=
  (file s, mkSession (file s) (cache s) (S (reads s))).

(** A call of the decorated function: a stored value is returned as it is;
    otherwise the body runs, and its value is stored when it returns one
    (an exception is not cached).  [env k] is what the body finds when it
    runs after [k] earlier reads: the clock moves between runs. *)
Definition cached_load_data (env : nat -> pandas)
           (parse_float : string -> option Q) (s : session)
  : result DataFrame * session :=
  match cache s with
  | Some df => (Ok df, s)
  | None =>
      let '(raw, s1) := read_csv s in
      match load_data (env (reads s)) parse_float raw with
      | Ok df => (Ok df, mkSession (file s1) (Some df) (reads s1))
      | Raise e => (Raise e, s1)
      end
  end.

(** ** The views *)

Definition unemp_col : string := "Estimated Unemployment Rate (%)".

(** The non-null values of a float column, in row order. *)
Fixpoint valid_values (l : list cell) : list Q :=
  match l with
  | [] => []
  | Num q :: t => q :: valid_values t
  | _ :: t => valid_values t
  end.

Definition Qsum (l : list Q) : Q := fold_right Qplus 0%Q l.

Definition Qmax2 (a b : Q) : Q := if Qle_bool a b then b else a.

(** The mean of the non-null values without any rounding.  It is not what
    [Series.mean()] returns, whose float64 sum is rounded at every addition
    in an order of the library's choosing; it serves where a concrete mean
    is needed to evaluate a view. *)
Definition exact_mean (l : list cell) : option Q :=
  match valid_values l with
  | [] => None
  | vs => Some (Qsum vs / inject_Z (Z.of_nat (List.length vs)))%Q
  end.

(** [Series.max()], skipna. *)
Definition max (l : list cell) : option Q :=
  match valid_values l with
  | [] => None
  | v :: vs => Some (fold_left Qmax2 vs v)
  end.

(** Line 91.  The maximum of floats involves no rounding. *)
Definition max_unemp (df : DataFrame) : option Q := max (series df unemp_col).

(** Line 90.  [mean] is [Series.mean()] on a float64 column, NaN being
    [None]: a parameter of the views, since its rounding is the library's. *)
Definition avg_unemp (mean : list cell -> option Q) (df : DataFrame)
  : option Q :=
  mean (series df unemp_col).

Definition date_eqb (a b : date) : bool :=
  ((year a =? year b) && (month a =? month b) && (day a =? day b))%Z.

(** Elementwise [==]: a null equals nothing. *)
Definition cell_eqb (a b : cell) : bool :=
  match a, b with
  | Str s, Str t => String.eqb s t
  | Num p, Num q => Qeq_bool p q
  | Timestamp d, Timestamp e => date_eqb d e
  | _, _ => false
  end.

(** [df[mask]] for a mask computed row by row. *)
Definition mask_rows (p : list cell -> bool) (df : DataFrame) : DataFrame :=
  mkDF (columns df) (filter p (rows df)).

(** Line 106: [df[df["Region"] == region]]. *)
Definition region_df (df : DataFrame) (region : cell) : DataFrame :=
  mask_rows (fun r => cell_eqb (cell_at (columns df) "Region" r) region) df.

(** [DataFrame.empty]: some axis has length 0. *)
Definition empty (df : DataFrame) : bool :=
  (List.length (columns df) =? 0) || (List.length (rows df) =? 0).

(** What a figure carries here: its data and encodings and the decorations
    added to it.  Titles, colours and fonts are not modelled. *)
Record Shape := mkShape {
  shape_type : string;
  x0 : string; x1 : string;
  y0 : Z; y1 : Z;
  xref : string; yref : string
}.

Record Annotation := mkAnnotation {
  ann_x : string; ann_y : Z;
  ann_xref : string; ann_yref : string;
  text : string
}.

Record Figure := mkFigure {
  data : DataFrame;
  x : string;
  y : string;
  markers : bool;
  shapes : list Shape;
  annotations : list Annotation
}.

Definition px_line (df : DataFrame) (x y : string) (markers : bool) : Figure :=
  mkFigure df x y markers [] [].

(** Lines 111-144. *)
Definition add_lockdown_vline (fig : Figure) (date_str : string) : Figure :=
  mkFigure (data fig) (x fig) (y fig) (markers fig)
    (shapes fig ++ [mkShape "line" date_str date_str 0 1 "x" "paper"])
    (annotations fig
       ++ [mkAnnotation date_str 1 "x" "paper" "Lockdown start"]).

(** What a section of the page shows. *)
Inductive element :=
| StWarning (body : string)
| StPlotlyChart (fig : Figure).

(** Lines 151-162: the time series of the chosen region. *)
Definition region_trend (df : DataFrame) (region : cell) : element :=
  let region_df := region_df df region in
  if empty region_df then
    StWarning "No data available for the selected region."
  else
    let fig_region := px_line region_df "Date" unemp_col true in
    let fig_region := add_lockdown_vline fig_region "2020-03-01" in
    StPlotlyChart fig_region.

(** *** Average by region *)

Section Sort.

Context {A : Type} (before : A -> A -> bool).

Fixpoint insert (a : A) (l : list A) : list A :=
  match l with
  | [] => [a]
  | b :: t => if before a b then a :: l else b :: insert a t
  end.

(** A sort by comparisons.  [sort_values] promises a sorted rearrangement
    and no order among ties; this is one such. *)
Definition sort (l : list A) : list A := fold_right insert [] l.

(** The comparison as a relation. *)
Definition ordered (a b : A) : Prop := before a b = true.

End Sort.

(** The distinct values of a column, each at its first appearance. *)
Fixpoint unique (l : list cell) : list cell :=
  match l with
  | [] => []
  | c :: t => c :: filter (fun v => negb (cell_eqb v c)) (unique t)
  end.

(** [df.groupby(by)[col].mean().reset_index()]: one pair per distinct
    non-null key, with the mean of [col] over the rows of that key.  (The
    groups come in key order in pandas; the order is not modelled, the only
    use of the result sorts it again.) *)
Definition groupby_mean (mean : list cell -> option Q) (df : DataFrame)
           (by_ col : string) : list (cell * option Q) :=
  map (fun k =>
         (k, mean (series
                     (mask_rows
                        (fun r => cell_eqb (cell_at (columns df) by_ r) k) df)
                     col)))
      (unique (filter notna (series df by_))).

(** The order of [sort_values(ascending=False)]: larger first, nulls last. *)
Definition rate_before (a b : cell * option Q) : bool :=
  match snd a, snd b with
  | Some p, Some q => Qle_bool q p
  | _, None => true
  | None, Some _ => false
  end.

(** Lines 187-192. *)
Definition region_avg (mean : list cell -> option Q) (df : DataFrame)
  : list (cell * option Q) :=
  sort rate_before (groupby_mean mean df "Region" unemp_col).

(** ** Vocabulary of the statements *)

(** The labels after line 20. *)
Definition labels (raw : DataFrame) : list string :=
  map PyStr.strip (columns raw).

(** The labels line 21 keeps, given those already seen to the left. *)
Definition dedup_from (seen cols : list string) : list string :=
  loc_mask (map negb (duplicated_from seen cols)) cols.

(** The frame after lines 20-21. *)
Definition tidy (raw : DataFrame) : DataFrame :=
  loc_columns (map negb (duplicated (labels raw)))
              (set_columns (labels raw) raw).

(** The cell of an input row under the first column whose trimmed label is
    [name]. *)
Definition raw_cell (raw : DataFrame) (name : string) (row : list cell) : cell :=
  cell_at (labels raw) name row.

(** The input rows that survive line 35. *)
Definition kept (env : pandas) (raw : DataFrame) (row : list cell) : bool :=
  notna (raw_cell raw "Region" row)
  && notna (to_datetime env (raw_cell raw "Date" row)).

(** The label of the column that ends up under the name [target]. *)
Definition rate_label (cols : list string) : option string :=
  if PyStr.mem target cols then Some target
  else hd_error (matches cols).

(** [clean] sends an input row to its row in a cleaned table with columns
    [cols]: the date parsed, the rate (read under the input label [m]) made
    numeric, every other cell as it was. *)
Definition cleans (env : pandas) (parse_float : string -> option Q)
           (raw : DataFrame) (m : string) (cols : list string)
           (clean : list cell -> list cell) : Prop :=
  forall r,
    cell_at cols "Date" (clean r) = to_datetime env (raw_cell raw "Date" r)
    /\ cell_at cols target (clean r)
       = to_numeric parse_float (raw_cell raw m r)
    /\ forall n, In n cols -> n <> "Date" -> n <> target ->
                 cell_at cols n (clean r) = raw_cell raw n r.

(** Read as a relation: [a] may stand before [b] in the bar data. *)
Definition rate_desc (a b : cell * option Q) : Prop :=
  match snd a, snd b with
  | Some p, Some q => (q <= p)%Q
  | _, None => True
  | None, Some _ => False
  end.

(** ** Sample inputs *)

Module Sample.

(** A file in the shape of the data set: a repeated "Region" header, the
    rate under a longer label, a blank line, a date in another format, a
    rate that is not a number, and a date that is not in the calendar. *)
Definition raw : DataFrame :=
  mkDF ["Region"; "Date "; "Estimated Unemployment Rate (%) original";
        "Region "; "Unemployment Rate 2"]
       [ [Str "Goa"; Str "01-03-2020"; Str "5.5"; Str "South"; Num 1];
         [NA; NA; NA; NA; NA];
         [Str "Goa"; Str "2020/03/01"; Str "7"; Str "South"; Num 2];
         [Str "Assam"; Str "31-01-2020"; Str "abc"; Str "Northeast"; Num 3];
         [Str "Assam"; Str "29-02-2021"; Str "4"; Str "Northeast"; Num 4];
         [Str "Bihar"; Str "1-2-2020"; Str "10.25"; Str "East"; Num 5];
         [Str "Goa"; Str "01-12-2020"; Str "1.5"; Str "South"; Num 6] ].

Definition cleaned : DataFrame :=
  mkDF ["Region"; "Date"; "Estimated Unemployment Rate (%)";
        "Unemployment Rate 2"]
       [ [Str "Goa"; Timestamp (mkDate 2020 3 1); Num (55 # 10); Num 1];
         [Str "Assam"; Timestamp (mkDate 2020 1 31); NA; Num 3];
         [Str "Bihar"; Timestamp (mkDate 2020 2 1); Num (1025 # 100); Num 5];
         [Str "Goa"; Timestamp (mkDate 2020 12 1); Num (15 # 10); Num 6] ].

(** No label mentions the unemployment rate. *)
Definition no_rate : DataFrame :=
  mkDF ["Region"; "Date"; "Frequency"]
       [ [Str "Goa"; Str "01-03-2020"; Str "Monthly"] ].

(** The exact name next to another label that mentions the rate. *)
Definition exact : DataFrame :=
  mkDF ["Region"; "Date"; "Unemployment Rate (old)";
        "Estimated Unemployment Rate (%)"]
       [ [Str "Goa"; Str "01-03-2020"; Str "9"; Str "5.5"] ].

Definition exact_cleaned : DataFrame :=
  mkDF ["Region"; "Date"; "Unemployment Rate (old)";
        "Estimated Unemployment Rate (%)"]
       [ [Str "Goa"; Timestamp (mkDate 2020 3 1); Str "9"; Num (55 # 10)] ].

(** A row dated "now" beside a row dated in another format. *)
Definition dated_now : DataFrame :=
  mkDF ["Region"; "Date"; "Estimated Unemployment Rate (%)"]
       [ [Str "Goa"; Str "now"; Str "5.5"];
         [Str "Goa"; Str "2020/03/01"; Str "7"] ].

Definition dated_now_loaded : DataFrame :=
  mkDF ["Region"; "Date"; "Estimated Unemployment Rate (%)"]
       [ [Str "Goa"; Timestamp (mkDate 2026 11 3); Num (55 # 10)] ].

(** The data set's header as [pd.read_csv] delivers it: the reader has
    numbered the second "Region" before line 20 sees it. *)
Definition as_read : DataFrame :=
  mkDF ["Region"; "Date"; "Frequency"; "Estimated Unemployment Rate (%)";
        "Estimated Employed"; "Estimated Labour Participation Rate (%)";
        "Region.1"; "longitude"; "latitude"]
       [ [Str "Andhra Pradesh"; Str "31-01-2020"; Str "M"; Num (548 # 100);
          Num 16635535; Num (4102 # 100); Str "South"; Num (159129 # 10000);
          Num (7974 # 100)];
         [NA; NA; NA; NA; NA; NA; NA; NA; NA] ].

(** A run on 3 November 2026 with nanosecond Timestamps. *)
Definition env : pandas :=
  mkPandas (mkDate 2026 11 3) eq_refl Strptime.ns_range (fun _ H => H).

(** The same surroundings at every run. *)
Definition envs : nat -> pandas := fun _ => env.

Definition fresh : session := mkSession raw None 0.
Definition warm : session := mkSession raw (Some cleaned) 1.

End Sample.

(** ** The region selector (lines 100-104) *)

(** Equality of values as [Series.unique()] sees it: nulls are one value. *)
Definition same_value (a b : cell) : bool :=
  match a, b with
  | NA, NA => true
  | _, _ => cell_eqb a b
  end.

(** [Series.unique()]: the distinct values, each at its first appearance. *)
Fixpoint pd_unique (l : list cell) : list cell :=
  match l with
  | [] => []
  | c :: t => c :: filter (fun v => negb (same_value v c)) (pd_unique t)
  end.

(** Values Python orders among themselves. *)
Definition same_kind (a b : cell) : bool :=
  match a, b with
  | Str _, Str _ => true
  | Num _, Num _ => true
  | Timestamp _, Timestamp _ => true
  | _, _ => false
  end.

Definition date_leb (a b : date) : bool :=
  match (year a ?= year b)%Z with
  | Lt => true
  | Gt => false
  | Eq =>
      match (month a ?= month b)%Z with
      | Lt => true
      | Gt => false
      | Eq => (day a <=? day b)%Z
      end
  end.

(** [a <= b] between values of one kind: strings by code points, numbers by
    value, dates by the calendar. *)
Definition cell_leb (a b : cell) : bool :=
  match a, b with
  | Str s, Str t => String.leb s t
  | Num p, Num q => Qle_bool p q
  | Timestamp d, Timestamp e => date_leb d e
  | _, _ => true
  end.

(** [sorted(values)].  Nothing is compared in a list of fewer than two
    values.  Values of one kind come back in ascending order.  [None]
    stands for the other lists: Python raises TypeError on values of two
    kinds, and the place of a NaN among numbers is left to the sorting
    algorithm, which is not modelled. *)
Definition py_sorted (l : list cell) : option (list cell) :=
  match l with
  | [] => Some l
  | [_] => Some l
  | c :: _ :: _ =>
      if forallb (same_kind c) l then Some (sort cell_leb l) else None
  end.

(** The options of the select box, line 102. *)
Definition region_options (df : DataFrame) : option (list cell) :=
  py_sorted (pd_unique (series df "Region")).

(** The value of [st.selectbox]: the option picked, the first one until the
    user picks; None when there is no option. *)
Definition selectbox (options : list cell) (pick : nat) : cell :=
  nth pick options NA.

(** ** Reruns of the script *)

(** The session after [n] more evaluations of line 63. *)
Fixpoint reruns (env : nat -> pandas) (parse_float : string -> option Q)
         (n : nat) (s : session) : session :=
  match n with
  | O => s
  | S n' =>
      reruns env parse_float n' (snd (cached_load_data env parse_float s))
  end.

(** ** Dates written out *)

Definition digit_char (k : Z) : ascii := ascii_of_nat (48 + Z.to_nat k).

Definition two_digits (n : Z) : list ascii :=
  [digit_char (n / 10); digit_char (n mod 10)].

Definition four_digits (n : Z) : list ascii :=
  [digit_char (n / 1000); digit_char (n / 100 mod 10);
   digit_char (n / 10 mod 10); digit_char (n mod 10)].

(** A date spelled day-month-year with two, two and four digits, as the
    data set writes it. *)
Definition dmy_text (d : date) : string :=
  string_of_list_ascii
    (two_digits (day d) ++ "-"%char :: two_digits (month d)
       ++ "-"%char :: four_digits (year d)).


(** * Properties *)

(** ** Labels and positions *)

Lemma mem_In (x : string) (l : list string) :
  PyStr.mem x l = true <-> In x l.
Proof.
  unfold PyStr.mem. rewrite existsb_exists. split.
  - intros [y [Hy E]]. apply String.eqb_eq in E. now subst.
  - intros H. exists x. split; [assumption | apply String.eqb_refl].
Qed.

Lemma mem_false (x : string) (l : list string) :
  PyStr.mem x l = false <-> ~ In x l.
Proof.
  rewrite <- mem_In. destruct (PyStr.mem x l); split; intros; congruence.
Qed.

Lemma index_of_nth_error (name : string) (cols : list string) (i : nat) :
  index_of name cols = Some i -> nth_error cols i = Some name.
Proof.
  revert i. induction cols as [|c cs IH]; intros i H; simpl in H.
  - discriminate.
  - destruct (String.eqb_spec c name) as [->|Hne].
    + injection H as <-. reflexivity.
    + destruct (index_of name cs) as [k|]; simpl in H; [|discriminate].
      injection H as <-. simpl. now apply IH.
Qed.

Lemma index_of_None (name : string) (cols : list string) :
  index_of name cols = None <-> ~ In name cols.
Proof.
  induction cols as [|c cs IH]; simpl.
  - intuition.
  - destruct (String.eqb_spec c name) as [->|Hne].
    + split; [discriminate | intros H; exfalso; apply H; now left].
    + destruct (index_of name cs) as [k|]; simpl.
      * split; [discriminate|]. intros H. exfalso. apply H. right.
        destruct (in_dec string_dec name cs) as [Hin|Hnin]; [assumption|].
        apply IH in Hnin. discriminate.
      * split; [|reflexivity]. intros _ [E|Hin]; [congruence|].
        now apply (proj1 IH).
Qed.

Lemma index_of_In (name : string) (cols : list string) :
  In name cols -> exists i, index_of name cols = Some i.
Proof.
  intros Hin. destruct (index_of name cols) as [i|] eqn:E.
  - now exists i.
  - apply index_of_None in E. contradiction.
Qed.

Lemma index_of_Some_In (name : string) (cols : list string) (i : nat) :
  index_of name cols = Some i -> In name cols.
Proof.
  intros H. apply index_of_nth_error in H. eapply nth_error_In; eauto.
Qed.

Lemma index_of_inj (a b : string) (cols : list string) (i : nat) :
  index_of a cols = Some i -> index_of b cols = Some i -> a = b.
Proof.
  intros Ha Hb. apply index_of_nth_error in Ha, Hb. congruence.
Qed.

Lemma nth_set_nth_same (i : nat) (v : cell) (row : list cell) :
  nth i (set_nth i v row) NA = v.
Proof.
  revert row. induction i as [|i IH]; intros [|x t]; simpl; auto.
Qed.

Lemma nth_set_nth_other (i j : nat) (v : cell) (row : list cell) :
  i <> j -> nth j (set_nth i v row) NA = nth j row NA.
Proof.
  revert j row. induction i as [|i IH]; intros [|j] [|x t] Hne; simpl;
    try congruence; auto.
  - destruct j; reflexivity.
  - rewrite IH by congruence. destruct j; reflexivity.
Qed.

Lemma cell_at_set_same (cols : list string) (name : string) (i : nat)
      (v : cell) (row : list cell) :
  index_of name cols = Some i ->
  cell_at cols name (set_nth i v row) = v.
Proof.
  intros H. unfold cell_at. rewrite H. apply nth_set_nth_same.
Qed.

Lemma cell_at_set_other (cols : list string) (name n : string) (i : nat)
      (v : cell) (row : list cell) :
  index_of name cols = Some i -> n <> name ->
  cell_at cols n (set_nth i v row) = cell_at cols n row.
Proof.
  intros H Hne. unfold cell_at.
  destruct (index_of n cols) as [j|] eqn:E; [|reflexivity].
  apply nth_set_nth_other. intros ->. apply Hne.
  eapply index_of_inj; eauto.
Qed.

(** ** De-duplication keeps the first column of every label *)

Lemma dedup_from_In (seen cols : list string) (x : string) :
  In x (dedup_from seen cols) <-> In x cols /\ ~ In x seen.
Proof.
  unfold dedup_from. revert seen.
  induction cols as [|c cs IH]; intros seen; simpl.
  - intuition.
  - destruct (PyStr.mem c seen) eqn:Hm; simpl.
    + rewrite IH. apply mem_In in Hm. simpl. split.
      * intros [H1 H2]. split; [now right | tauto].
      * intros [[->|H1] H2]; [contradiction|]. split; [assumption|].
        intros [->|H3]; contradiction.
    + rewrite IH. apply mem_false in Hm. simpl. split.
      * intros [->|[H1 H2]]; [tauto|]. split; [now right | tauto].
      * intros [[->|H1] H2]; [now left|].
        destruct (string_dec c x) as [->|Hne]; [now left|].
        right. split; [assumption|]. intros [E|H3]; congruence.
Qed.

Lemma dedup_from_NoDup (seen cols : list string) :
  NoDup (dedup_from seen cols).
Proof.
  revert seen. induction cols as [|c cs IH]; intros seen.
  - constructor.
  - unfold dedup_from. simpl. destruct (PyStr.mem c seen) eqn:Hm; simpl.
    + apply IH.
    + constructor; [|apply IH].
      intros Hin. apply (dedup_from_In (c :: seen) cs c) in Hin.
      destruct Hin as [_ Hn]. apply Hn. now left.
Qed.

Lemma dedup_from_index (seen cols : list string) (name : string) (j : nat) :
  ~ In name seen -> index_of name cols = Some j ->
  exists k,
    index_of name (dedup_from seen cols) = Some k
    /\ forall row : list cell,
         nth k (loc_mask (map negb (duplicated_from seen cols)) row) NA
         = nth j row NA.
Proof.
  unfold dedup_from. revert seen j.
  induction cols as [|c cs IH]; intros seen j Hseen Hj; simpl in Hj.
  - discriminate.
  - simpl. destruct (String.eqb_spec c name) as [->|Hne].
    + injection Hj as <-. apply mem_false in Hseen. rewrite Hseen. simpl.
      rewrite String.eqb_refl. exists 0. split; [reflexivity|].
      intros [|x xs]; reflexivity.
    + destruct (index_of name cs) as [j'|] eqn:Ej; simpl in Hj; [|discriminate].
      injection Hj as <-.
      destruct (IH (c :: seen) j') as [k [Hk Hrow]]; [|reflexivity|].
      { intros [E|H]; [congruence | contradiction]. }
      destruct (PyStr.mem c seen); simpl.
      * exists k. split; [assumption|].
        intros [|x xs]; simpl; [now destruct k | apply Hrow].
      * destruct (String.eqb_spec c name) as [E|_]; [congruence|].
        rewrite Hk. exists (S k). split; [reflexivity|].
        intros [|x xs]; simpl; [reflexivity | apply Hrow].
Qed.

(** Reading a column of the de-duplicated frame is reading the first
    column of that label in the frame as it was. *)
Lemma cell_at_dedup (cols : list string) (name : string) (row : list cell) :
  cell_at (dedup_from [] cols) name
          (loc_mask (map negb (duplicated cols)) row)
  = cell_at cols name row.
Proof.
  unfold cell_at at 2. destruct (index_of name cols) as [j|] eqn:Ej.
  - destruct (dedup_from_index [] cols name j) as [k [Hk Hrow]]; auto.
    unfold cell_at. rewrite Hk. apply Hrow.
  - unfold cell_at.
    destruct (index_of name (dedup_from [] cols)) as [k|] eqn:Ek;
      [|reflexivity].
    apply index_of_Some_In, dedup_from_In in Ek.
    apply index_of_None in Ej. tauto.
Qed.

(** ** Renaming *)

Lemma rename_labels_absent (old new : string) (cols : list string) :
  ~ In old cols -> rename_labels old new cols = cols.
Proof.
  induction cols as [|c cs IH]; intros H; simpl; [reflexivity|].
  destruct (String.eqb_spec c old) as [->|_].
  - exfalso. apply H. now left.
  - f_equal. apply IH. intros Hin. apply H. now right.
Qed.

Lemma rename_labels_split (old new : string) (l1 l2 : list string) :
  ~ In old l1 -> ~ In old l2 ->
  rename_labels old new (l1 ++ old :: l2) = l1 ++ new :: l2.
Proof.
  intros H1 H2. unfold rename_labels. rewrite map_app. simpl.
  rewrite String.eqb_refl.
  fold (rename_labels old new l1). fold (rename_labels old new l2).
  now rewrite !rename_labels_absent.
Qed.

(** Where a label stands after a renaming to a fresh name. *)
Lemma index_of_rename (old new n : string) (cols : list string) :
  ~ In new cols ->
  index_of n (rename_labels old new cols)
  = if String.eqb n new then index_of old cols
    else if String.eqb n old then None
    else index_of n cols.
Proof.
  induction cols as [|c cs IH]; intros Hnew; simpl.
  - destruct (String.eqb n new), (String.eqb n old); reflexivity.
  - assert (Hc : c <> new) by (intros ->; apply Hnew; now left).
    assert (Hcs : ~ In new cs) by (intros H; apply Hnew; now right).
    rewrite (IH Hcs).
    destruct (String.eqb_spec n new) as [->|Hn1];
      destruct (String.eqb_spec c old) as [->|Hc1].
    + now rewrite String.eqb_refl.
    + destruct (String.eqb_spec c new); [congruence | reflexivity].
    + destruct (String.eqb_spec new n); [congruence|].
      destruct (String.eqb_spec n old) as [->|Hn2].
      * reflexivity.
      * destruct (String.eqb_spec old n); [congruence | reflexivity].
    + destruct (String.eqb_spec n old) as [->|Hn2].
      * destruct (String.eqb_spec c old); [congruence | reflexivity].
      * reflexivity.
Qed.

(** The first element a filter keeps, and what stands around it. *)
Lemma filter_first {A} (p : A -> bool) (l : list A) (m : A) (ms : list A) :
  filter p l = m :: ms ->
  exists l1 l2,
    l = l1 ++ m :: l2 /\ filter p l1 = [] /\ filter p l2 = ms /\ p m = true.
Proof.
  induction l as [|a l IH]; simpl; intros H; [discriminate|].
  destruct (p a) eqn:Ha.
  - injection H as -> <-. exists [], l. auto.
  - destruct (IH H) as [l1 [l2 [-> [H1 [H2 H3]]]]].
    exists (a :: l1), l2. simpl. rewrite Ha. auto.
Qed.

Lemma filter_nil_not_In {A} (p : A -> bool) (l : list A) (a : A) :
  filter p l = [] -> p a = true -> ~ In a l.
Proof.
  intros H Ha Hin.
  assert (Hf : In a (filter p l)) by (apply filter_In; auto).
  rewrite H in Hf. contradiction.
Qed.

Lemma NoDup_split_not_In {A} (l1 l2 : list A) (m : A) :
  NoDup (l1 ++ m :: l2) -> ~ In m l1 /\ ~ In m l2.
Proof.
  intros H. apply NoDup_remove_2 in H. split; intros Hin; apply H;
    apply in_or_app; auto.
Qed.

Lemma NoDup_replace {A} (l1 l2 : list A) (m t : A) :
  NoDup (l1 ++ m :: l2) -> ~ In t (l1 ++ m :: l2) -> NoDup (l1 ++ t :: l2).
Proof.
  intros H Ht. apply NoDup_remove_1 in H.
  apply (NoDup_Add (Add_app t l1 l2)). split; [assumption|].
  intros Hin. apply Ht.
  apply in_app_or in Hin. apply in_or_app. simpl. tauto.
Qed.

(** ** Substrings *)

Lemma prefix_append (sub s : string) :
  String.prefix sub s = true <-> exists b, s = (sub ++ b)%string.
Proof.
  revert s. induction sub as [|a sub IH]; intros s.
  - destruct s; simpl; split; eauto.
  - destruct s as [|c s]; simpl.
    + split; [discriminate | intros [b E]; discriminate].
    + destruct (Ascii.ascii_dec a c) as [->|Hne].
      * rewrite IH. split; intros [b E]; exists b; congruence.
      * split; [discriminate | intros [b E]; congruence].
Qed.

(** [contains] is the substring relation. *)
Lemma contains_spec (sub s : string) :
  PyStr.contains sub s = true <-> exists a b, s = (a ++ sub ++ b)%string.
Proof.
  induction s as [|c s IH].
  - cbn [PyStr.contains]. rewrite orb_false_r, prefix_append. split.
    + intros [b E]. now exists EmptyString, b.
    + intros [a [b E]]. destruct a; [|discriminate]. now exists b.
  - cbn [PyStr.contains]. rewrite orb_true_iff, IH, prefix_append. split.
    + intros [[b E]|[a [b E]]].
      * now exists EmptyString, b.
      * exists (String c a), b. simpl. congruence.
    + intros [[|c' a] [b E]].
      * left. now exists b.
      * right. exists a, b. simpl in E. congruence.
Qed.

Lemma cell_at_rename (old new n : string) (cols : list string)
      (row : list cell) :
  ~ In new cols ->
  cell_at (rename_labels old new cols) n row
  = if String.eqb n new then cell_at cols old row
    else if String.eqb n old then NA
    else cell_at cols n row.
Proof.
  intros H. unfold cell_at. rewrite (index_of_rename old new n cols H).
  destruct (String.eqb n new); [reflexivity|].
  destruct (String.eqb n old); reflexivity.
Qed.

(** ** The steps of the loader *)

Lemma combine_map_self {A B C} (g : A -> B) (h : A * B -> C) (l : list A) :
  map h (combine l (map g l)) = map (fun a => h (a, g a)) l.
Proof.
  induction l as [|a l IH]; simpl; [reflexivity | now rewrite IH].
Qed.

Lemma filter_map_comm {A B} (p : B -> bool) (f : A -> B) (l : list A) :
  filter p (map f l) = map f (filter (fun a => p (f a)) l).
Proof.
  induction l as [|a l IH]; simpl; [reflexivity|].
  destruct (p (f a)); simpl; now rewrite IH.
Qed.

(** Assigning back a column mapped through [f] is mapping it in place. *)
Lemma setitem_map (f : cell -> cell) (name : string) (df : DataFrame) :
  PyStr.mem name (columns df) = true ->
  setitem df name (map f (series df name)) = map_column f name df.
Proof.
  intros H. apply mem_In, index_of_In in H. destruct H as [i Hi].
  unfold setitem, map_column, series, cell_at. rewrite Hi. f_equal.
  rewrite map_map.
  apply (combine_map_self (fun r => f (nth i r NA))
                          (fun '(r, v) => set_nth i v r)).
Qed.

Lemma columns_map_column (f : cell -> cell) (name : string) (df : DataFrame) :
  columns (map_column f name df) = columns df.
Proof.
  unfold map_column. now destruct (index_of name (columns df)).
Qed.

Lemma rows_map_column (f : cell -> cell) (name : string) (df : DataFrame)
      (i : nat) :
  index_of name (columns df) = Some i ->
  rows (map_column f name df)
  = map (fun r => set_nth i (f (nth i r NA)) r) (rows df).
Proof.
  intros H. unfold map_column. now rewrite H.
Qed.

Lemma dropna_Ok (subset : list string) (df out : DataFrame) :
  dropna subset df = Ok out ->
  Forall (fun c => PyStr.mem c (columns df) = true) subset
  /\ out = mask_rows (complete (columns df) subset) df.
Proof.
  unfold dropna.
  destruct (filter (fun c => negb (PyStr.mem c (columns df))) subset)
    as [|c0 l0] eqn:E; [|discriminate].
  intros H. injection H as <-. split; [|reflexivity].
  apply Forall_forall. intros c Hc.
  destruct (PyStr.mem c (columns df)) eqn:Hm; [reflexivity|].
  exfalso. eapply (filter_nil_not_In _ _ c E); [|exact Hc].
  now rewrite Hm.
Qed.

Lemma dropna_present (subset : list string) (df : DataFrame) :
  Forall (fun c => PyStr.mem c (columns df) = true) subset ->
  dropna subset df = Ok (mask_rows (complete (columns df) subset) df).
Proof.
  intros H. unfold dropna.
  replace (filter (fun c => negb (PyStr.mem c (columns df))) subset)
    with (@nil string); [reflexivity|].
  symmetry. induction H as [|c l Hc _ IH]; simpl; [reflexivity|].
  now rewrite Hc.
Qed.

Lemma columns_tidy (raw : DataFrame) :
  columns (tidy raw) = dedup_from [] (labels raw).
Proof. reflexivity. Qed.

Lemma rows_tidy (raw : DataFrame) :
  rows (tidy raw)
  = map (loc_mask (map negb (duplicated (labels raw)))) (rows raw).
Proof. reflexivity. Qed.

Lemma NoDup_columns_tidy (raw : DataFrame) : NoDup (columns (tidy raw)).
Proof. rewrite columns_tidy. apply dedup_from_NoDup. Qed.

Lemma In_columns_tidy (raw : DataFrame) (n : string) :
  In n (columns (tidy raw)) <-> In n (labels raw).
Proof. rewrite columns_tidy, dedup_from_In. simpl. tauto. Qed.

Lemma cell_at_tidy (raw : DataFrame) (n : string) (row : list cell) :
  cell_at (columns (tidy raw)) n
          (loc_mask (map negb (duplicated (labels raw))) row)
  = raw_cell raw n row.
Proof. rewrite columns_tidy. apply cell_at_dedup. Qed.

(** A label found by the fallback search is none of the fixed names. *)
Lemma match_not_fixed (m : string) :
  PyStr.contains "Unemployment Rate" m = true ->
  m <> "Date" /\ m <> "Region".
Proof.
  intros H. split; intros ->; vm_compute in H; discriminate.
Qed.

Lemma target_not_fixed : target <> "Date" /\ target <> "Region".
Proof. split; discriminate. Qed.

(** What lines 24-29 return when they return. *)
Lemma stable_rate_name_Ok (df df1 : DataFrame) :
  stable_rate_name df = Ok df1 ->
  rows df1 = rows df
  /\ ((PyStr.mem target (columns df) = true
       /\ rate_label (columns df) = Some target
       /\ columns df1 = columns df)
      \/ (PyStr.mem target (columns df) = false
          /\ exists m ms,
               matches (columns df) = m :: ms
               /\ rate_label (columns df) = Some m
               /\ columns df1 = rename_labels m target (columns df))).
Proof.
  unfold stable_rate_name, rate_label.
  destruct (PyStr.mem target (columns df)) eqn:Hm; simpl.
  - intros H. injection H as <-. split; [reflexivity|]. left. auto.
  - destruct (matches (columns df)) as [|m ms] eqn:Em; [discriminate|].
    intros H. injection H as <-. split; [reflexivity|]. right.
    split; [reflexivity|]. exists m, ms. auto.
Qed.

Lemma not_In_rename (old new : string) (cols : list string) :
  old <> new -> ~ In old (rename_labels old new cols).
Proof.
  intros Hne Hin. unfold rename_labels in Hin. apply in_map_iff in Hin.
  destruct Hin as [c [E _]].
  destruct (String.eqb_spec c old); congruence.
Qed.

Lemma In_rename_new (old new : string) (cols : list string) :
  In old cols -> In new (rename_labels old new cols).
Proof.
  intros H. unfold rename_labels. apply in_map_iff. exists old.
  now rewrite String.eqb_refl.
Qed.

Lemma matches_In (cols : list string) (m : string) (ms : list string) :
  matches cols = m :: ms ->
  In m cols /\ PyStr.contains "Unemployment Rate" m = true.
Proof.
  intros H. apply filter_In. unfold matches in H. rewrite H. now left.
Qed.

(** The cells of the frame lines 24-29 return, in terms of the input. *)
Lemma cell_at_stable (raw df1 : DataFrame) :
  stable_rate_name (tidy raw) = Ok df1 ->
  exists m,
    rate_label (columns (tidy raw)) = Some m
    /\ In target (columns df1)
    /\ (forall n, In n (columns df1) <-> n = target \/ (n <> m /\ In n (labels raw)))
    /\ forall row,
         let r1 := loc_mask (map negb (duplicated (labels raw))) row in
         cell_at (columns df1) target r1 = raw_cell raw m row
         /\ forall n, In n (columns df1) -> n <> target ->
                      cell_at (columns df1) n r1 = raw_cell raw n row.
Proof.
  intros H. apply stable_rate_name_Ok in H.
  destruct H as [_ [[Hm [Hl Hc]]|[Hm [m [ms [Em [Hl Hc]]]]]]].
  - exists target. rewrite Hc. apply mem_In in Hm.
    split; [assumption|]. split; [assumption|]. split.
    + intros n. rewrite In_columns_tidy. split.
      * intros Hn. destruct (string_dec n target); auto.
      * intros [->|[_ Hn]]; [now apply In_columns_tidy | assumption].
    + intros row r1. subst r1. split; intros; apply cell_at_tidy.
  - exists m. apply mem_false in Hm. apply matches_In in Em.
    destruct Em as [Hin Hcont].
    assert (Hne : m <> target) by (intros ->; contradiction).
    rewrite Hc. split; [assumption|].
    split; [now apply In_rename_new|]. split.
    + intros n. unfold rename_labels. rewrite in_map_iff. split.
      * intros [c [E Hc']]. destruct (String.eqb c m) eqn:Hcm.
        -- left. congruence.
        -- right. subst n. apply String.eqb_neq in Hcm.
           split; [assumption|]. now apply In_columns_tidy.
      * intros [->|[Hn Hl']].
        -- exists m. now rewrite String.eqb_refl.
        -- exists n. apply In_columns_tidy in Hl'. split; [|assumption].
           destruct (String.eqb_spec n m); congruence.
    + intros row r1. subst r1. split.
      * rewrite cell_at_rename by assumption. rewrite String.eqb_refl.
        apply cell_at_tidy.
      * intros n Hn Hnt. rewrite cell_at_rename by assumption.
        destruct (String.eqb_spec n target); [congruence|].
        destruct (String.eqb_spec n m) as [->|_].
        -- exfalso. now apply (not_In_rename m target (columns (tidy raw))).
        -- apply cell_at_tidy.
Qed.

Section LoaderProps.

Variable env : pandas.
Variable parse_float : string -> option Q.

(** The loader returns a table exactly when the header has what lines
    24-35 look up, and then the table is this one. *)
Lemma load_data_inv (raw out : DataFrame) :
  load_data env parse_float raw = Ok out ->
  exists df1,
    stable_rate_name (tidy raw) = Ok df1
    /\ PyStr.mem "Date" (columns df1) = true
    /\ PyStr.mem "Region" (columns df1) = true
    /\ PyStr.mem target (columns df1) = true
    /\ out = map_column (to_numeric parse_float) target
               (mask_rows (complete (columns df1) ["Region"; "Date"])
                          (map_column (to_datetime env) "Date" df1)).
Proof.
  unfold load_data. cbv zeta. cbn [columns set_columns].
  fold (labels raw). fold (tidy raw).
  destruct (stable_rate_name (tidy raw)) as [df1|e] eqn:E1;
    cbn [bind]; [|discriminate].
  unfold getitem at 1.
  destruct (PyStr.mem "Date" (columns df1)) eqn:HD; cbn [bind]; [|discriminate].
  rewrite (setitem_map (to_datetime env) "Date" df1 HD).
  destruct (dropna ["Region"; "Date"] (map_column (to_datetime env) "Date" df1))
    as [df3|e] eqn:E3; cbn [bind]; [|discriminate].
  apply dropna_Ok in E3. destruct E3 as [HF ->].
  rewrite columns_map_column in *.
  unfold getitem. cbn [columns mask_rows].
  rewrite columns_map_column.
  destruct (PyStr.mem target (columns df1)) eqn:HT; cbn [bind]; [|discriminate].
  intros H. injection H as <-. exists df1.
  split; [reflexivity|]. split; [assumption|].
  split; [now apply Forall_inv in HF|]. split; [assumption|].
  unfold reset_index.
  apply (setitem_map (to_numeric parse_float) target).
  cbn [columns mask_rows]. now rewrite columns_map_column.
Qed.

Lemma load_data_complete (raw df1 : DataFrame) :
  stable_rate_name (tidy raw) = Ok df1 ->
  PyStr.mem "Date" (columns df1) = true ->
  PyStr.mem "Region" (columns df1) = true ->
  load_data env parse_float raw
  = Ok (map_column (to_numeric parse_float) target
          (mask_rows (complete (columns df1) ["Region"; "Date"])
                     (map_column (to_datetime env) "Date" df1))).
Proof.
  intros E1 HD HR.
  destruct (cell_at_stable raw df1 E1) as [m [_ [HT _]]].
  apply mem_In in HT.
  unfold load_data. cbv zeta. cbn [columns set_columns].
  fold (labels raw). fold (tidy raw).
  rewrite E1. cbn [bind]. unfold getitem at 1. rewrite HD. cbn [bind].
  rewrite (setitem_map (to_datetime env) "Date" df1 HD).
  rewrite dropna_present.
  2:{ rewrite columns_map_column. repeat constructor; assumption. }
  cbn [bind]. unfold getitem. cbn [columns mask_rows].
  rewrite !columns_map_column. rewrite HT. cbn [bind].
  unfold reset_index. f_equal.
  apply (setitem_map (to_numeric parse_float) target).
  cbn [columns mask_rows]. now rewrite columns_map_column.
Qed.

(** The returned table, row by row: the input rows with a Region and a
    parsable Date, in their order, each one cleaned. *)
Lemma load_data_rows (raw out : DataFrame) :
  load_data env parse_float raw = Ok out ->
  exists m clean,
    rate_label (columns (tidy raw)) = Some m
    /\ In "Region" (columns out) /\ In "Date" (columns out)
    /\ In target (columns out)
    /\ (forall n, In n (columns out)
                  <-> n = target \/ (n <> m /\ In n (labels raw)))
    /\ rows out = map clean (filter (kept env raw) (rows raw))
    /\ cleans env parse_float raw m (columns out) clean.
Proof.
  intros H. destruct (load_data_inv raw out H) as [df1 [E1 [HD [HR [HT ->]]]]].
  destruct (cell_at_stable raw df1 E1) as [m [Hl [_ [Hcols Hcells]]]].
  destruct (stable_rate_name_Ok _ _ E1) as [Hrows _].
  apply mem_In in HD, HR, HT.
  destruct (index_of_In _ _ HD) as [i Hi].
  destruct (index_of_In _ _ HT) as [j Hj].
  destruct target_not_fixed as [HtD HtR].
  set (lm := loc_mask (map negb (duplicated (labels raw)))) in *.
  set (dr := fun r : list cell => set_nth i (to_datetime env (nth i r NA)) r).
  set (nr := fun r : list cell =>
               set_nth j (to_numeric parse_float (nth j r NA)) r).
  assert (HcD : forall r, cell_at (columns df1) "Date" (dr (lm r))
                          = to_datetime env (raw_cell raw "Date" r)).
  { intros r. unfold dr. rewrite (cell_at_set_same _ _ _ _ _ Hi).
    f_equal. destruct (Hcells r) as [_ Hn].
    rewrite <- (Hn "Date") by (auto; congruence).
    unfold cell_at. now rewrite Hi. }
  assert (HcO : forall n r, n <> "Date" ->
                  cell_at (columns df1) n (dr (lm r))
                  = cell_at (columns df1) n (lm r)).
  { intros n r Hn. unfold dr. now apply (cell_at_set_other _ "Date"). }
  exists m, (fun r => nr (dr (lm r))).
  rewrite columns_map_column. cbn [columns mask_rows].
  rewrite columns_map_column.
  repeat (split; [assumption|]). split.
  - rewrite (rows_map_column _ target _ j)
      by (cbn [columns mask_rows]; now rewrite columns_map_column).
    cbn [rows mask_rows]. rewrite (rows_map_column _ "Date" df1 i Hi).
    rewrite Hrows, rows_tidy.
    fold lm. fold dr. fold nr. rewrite map_map, filter_map_comm, map_map.
    f_equal. apply filter_ext. intros r. unfold complete, kept.
    cbn [forallb]. rewrite andb_true_r.
    rewrite HcD, HcO by discriminate.
    destruct (Hcells r) as [_ Hn].
    rewrite (Hn "Region") by (auto; congruence). reflexivity.
  - intros r. split; [|split].
    + unfold nr. rewrite (cell_at_set_other _ target) by (auto; congruence).
      apply HcD.
    + unfold nr. rewrite (cell_at_set_same _ _ _ _ _ Hj). f_equal.
      transitivity (cell_at (columns df1) target (dr (lm r))).
      { unfold cell_at. now rewrite Hj. }
      rewrite HcO by assumption. apply (Hcells r).
    + intros n Hn HnD HnT. unfold nr.
      rewrite (cell_at_set_other _ target) by assumption.
      rewrite HcO by assumption. now apply (Hcells r).
Qed.

End LoaderProps.

(** ** The header of the returned table *)

Lemma fallback_columns (cols : list string) (m : string) (ms : list string) :
  NoDup cols -> ~ In target cols -> matches cols = m :: ms ->
  exists l1 l2,
    cols = l1 ++ m :: l2
    /\ matches l1 = [] /\ matches l2 = ms
    /\ ~ In m l1 /\ ~ In m l2
    /\ rename_labels m target cols = l1 ++ target :: l2
    /\ NoDup (l1 ++ target :: l2).
Proof.
  intros Hnd Ht Hm. destruct (filter_first _ _ _ _ Hm) as [l1 [l2 [E [H1 [H2 _]]]]].
  exists l1, l2. subst cols.
  destruct (NoDup_split_not_In _ _ _ Hnd) as [Hm1 Hm2].
  repeat (split; [assumption || reflexivity|]). split.
  - now apply rename_labels_split.
  - now apply NoDup_replace with (m := m).
Qed.

Lemma index_of_app_fresh (n : string) (l1 l2 : list string) :
  ~ In n l1 -> index_of n (l1 ++ n :: l2) = Some (List.length l1).
Proof.
  induction l1 as [|c l1 IH]; intros H; simpl.
  - now rewrite String.eqb_refl.
  - destruct (String.eqb_spec c n) as [->|_].
    + exfalso. apply H. now left.
    + rewrite IH; [reflexivity|]. intros Hin. apply H. now right.
Qed.

Lemma index_of_first (n : string) (cols : list string) (i : nat) :
  index_of n cols = Some i ->
  forall k, k < i -> nth_error cols k <> Some n.
Proof.
  revert i. induction cols as [|c cs IH]; intros i H k Hk; simpl in H.
  - discriminate.
  - destruct (String.eqb_spec c n) as [->|Hne].
    + injection H as <-. lia.
    + destruct (index_of n cs) as [i'|] eqn:E; simpl in H; [|discriminate].
      injection H as <-. destruct k as [|k]; simpl.
      * congruence.
      * apply (IH i' eq_refl). lia.
Qed.

Lemma nth_error_replace {A} (l1 l2 : list A) (a b : A) (i : nat) :
  i <> List.length l1 ->
  nth_error (l1 ++ a :: l2) i = nth_error (l1 ++ b :: l2) i.
Proof.
  revert i. induction l1 as [|c l1 IH]; intros [|i] H; simpl in *;
    try reflexivity; try lia.
  apply IH. lia.
Qed.

Section LoaderClaims.

Variable env : pandas.
Variable parse_float : string -> option Q.

Lemma load_data_columns (raw out : DataFrame) :
  load_data env parse_float raw = Ok out ->
  exists df1,
    stable_rate_name (tidy raw) = Ok df1 /\ columns out = columns df1.
Proof.
  intros H. destruct (load_data_inv _ _ _ _ H) as [df1 [E1 [_ [_ [_ ->]]]]].
  exists df1. split; [assumption|].
  rewrite columns_map_column. cbn [columns mask_rows].
  apply columns_map_column.
Qed.

Lemma load_data_NoDup (raw out : DataFrame) :
  load_data env parse_float raw = Ok out -> NoDup (columns out).
Proof.
  intros H. destruct (load_data_columns _ _ H) as [df1 [E1 ->]].
  apply stable_rate_name_Ok in E1.
  destruct E1 as [_ [[_ [_ ->]]|[Hm [m [ms [Em [_ ->]]]]]]].
  - apply NoDup_columns_tidy.
  - apply mem_false in Hm.
    destruct (fallback_columns _ _ _ (NoDup_columns_tidy raw) Hm Em)
      as [l1 [l2 [_ [_ [_ [_ [_ [-> Hnd]]]]]]]].
    exact Hnd.
Qed.

(** The loader raises or returns by the header alone: no cell can make it
    raise. *)
Lemma load_data_header (cols : list string) (rows1 rows2 : list (list cell))
      (out : DataFrame) :
  load_data env parse_float (mkDF cols rows1) = Ok out ->
  exists out', load_data env parse_float (mkDF cols rows2) = Ok out'.
Proof.
  intros H. destruct (load_data_inv _ _ _ _ H) as [df1 [E1 [HD [HR _]]]].
  assert (E2 : stable_rate_name (tidy (mkDF cols rows2))
               = Ok (mkDF (columns df1) (rows (tidy (mkDF cols rows2))))).
  { revert E1. unfold stable_rate_name.
    change (columns (tidy (mkDF cols rows2)))
      with (columns (tidy (mkDF cols rows1))).
    destruct (negb (PyStr.mem target (columns (tidy (mkDF cols rows1))))).
    - destruct (matches (columns (tidy (mkDF cols rows1)))); [discriminate|].
      intros E. injection E as <-. reflexivity.
    - intros E. injection E as <-. reflexivity. }
  eexists. apply (load_data_complete env parse_float _ _ E2); assumption.
Qed.

(** C1. When the table of line 24 has no column named exactly
    "Estimated Unemployment Rate (%)": if no label contains
    "Unemployment Rate", [load_data] raises
    KeyError("Unemployment column not found in CSV") and returns no table;
    otherwise the first label that contains it, and that column only, is
    renamed to the exact name, in lines 24-29 and in the table returned. *)
Theorem load_data_locates_rate_column (raw : DataFrame) :
  PyStr.mem target (columns (tidy raw)) = false ->
  match matches (columns (tidy raw)) with
  | [] =>
      load_data env parse_float raw
      = Raise (KeyError ["Unemployment column not found in CSV"])
  | m :: _ =>
      exists l1 l2,
        columns (tidy raw) = l1 ++ m :: l2
        /\ matches l1 = []
        /\ PyStr.contains "Unemployment Rate" m = true
        /\ stable_rate_name (tidy raw)
           = Ok (mkDF (l1 ++ target :: l2) (rows (tidy raw)))
        /\ forall out, load_data env parse_float raw = Ok out ->
                       columns out = l1 ++ target :: l2
  end.
Proof.
  intros Hm. destruct (matches (columns (tidy raw))) as [|m ms] eqn:Em.
  - unfold load_data. cbv zeta. cbn [columns set_columns].
    fold (labels raw). fold (tidy raw).
    unfold stable_rate_name. rewrite Hm, Em. reflexivity.
  - pose proof (proj1 (mem_false _ _) Hm) as Hn.
    destruct (fallback_columns _ _ _ (NoDup_columns_tidy raw) Hn Em)
      as [l1 [l2 [E [H1 [_ [_ [_ [Hr _]]]]]]]].
    exists l1, l2. split; [assumption|]. split; [assumption|].
    split; [apply (matches_In _ _ _ Em)|].
    assert (Es : stable_rate_name (tidy raw)
                 = Ok (mkDF (l1 ++ target :: l2) (rows (tidy raw)))).
    { unfold stable_rate_name. rewrite Hm, Em. cbn [negb].
      unfold rename. now rewrite Hr. }
    split; [assumption|].
    intros out Hout. destruct (load_data_columns _ _ Hout) as [df1 [E1 ->]].
    rewrite Es in E1. now injection E1 as <-.
Qed.

(** Of the columns of the delivered frame that share a trimmed label, the
    first is kept: the returned table has pairwise distinct labels, one
    column labelled "Region", with the values of the first delivered column
    whose trimmed label is "Region". *)
Lemma first_of_equal_labels_kept (raw out : DataFrame) :
  load_data env parse_float raw = Ok out ->
  NoDup (columns out)
  /\ count_occ string_dec (columns out) "Region" = 1
  /\ exists j clean,
       index_of "Region" (map PyStr.strip (columns raw)) = Some j
       /\ (forall k, k < j ->
             nth_error (map PyStr.strip (columns raw)) k <> Some "Region")
       /\ rows out = map clean (filter (kept env raw) (rows raw))
       /\ forall r, cell_at (columns out) "Region" (clean r) = nth j r NA.
Proof.
  intros H. pose proof (load_data_NoDup _ _ H) as Hnd.
  destruct (load_data_rows _ _ _ _ H)
    as [m [clean [_ [HR [_ [_ [Hcols [Hrows Hclean]]]]]]]].
  split; [assumption|]. split.
  - now apply NoDup_count_occ'.
  - destruct target_not_fixed as [_ HtR].
    assert (Hin : In "Region" (labels raw)).
    { apply Hcols in HR. destruct HR as [E|[_ Hin]]; [congruence | assumption]. }
    destruct (index_of_In _ _ Hin) as [j Hj].
    exists j, clean. split; [assumption|].
    split; [now apply index_of_first|]. split; [assumption|].
    intros r. destruct (Hclean r) as [_ [_ Hn]].
    rewrite Hn by (auto; congruence).
    unfold raw_cell, cell_at. now rewrite Hj.
Qed.

Lemma nth_all_NA (row : list cell) (i : nat) :
  Forall (fun c => c = NA) row -> nth i row NA = NA.
Proof.
  intros H. revert i. induction H as [|c l Hc _ IH]; intros [|i]; simpl; auto.
Qed.

Lemma raw_cell_blank (raw : DataFrame) (n : string) (row : list cell) :
  Forall (fun c => c = NA) row -> raw_cell raw n row = NA.
Proof.
  intros H. unfold raw_cell, cell_at.
  destruct (index_of n (labels raw)); [now apply nth_all_NA | reflexivity].
Qed.

(** C2. Every row of the returned table has a non-null Region and a
    non-null Date.  The returned rows are, in order, the cleaned input rows
    whose Region is non-null and whose Date parses; an input row with a
    null Region or a null parsed Date, a fully blank row among them, is
    not among these. *)
Theorem load_data_region_date_notnull (raw out : DataFrame) :
  load_data env parse_float raw = Ok out ->
  Forall (fun r => isna (cell_at (columns out) "Region" r) = false
                   /\ isna (cell_at (columns out) "Date" r) = false)
         (rows out)
  /\ (exists clean,
        rows out = map clean (filter (kept env raw) (rows raw))
        /\ forall r,
             cell_at (columns out) "Region" (clean r)
             = raw_cell raw "Region" r
             /\ cell_at (columns out) "Date" (clean r)
                = to_datetime env (raw_cell raw "Date" r))
  /\ (forall r,
        isna (raw_cell raw "Region" r) = true
        \/ isna (to_datetime env (raw_cell raw "Date" r)) = true ->
        kept env raw r = false)
  /\ (forall r, Forall (fun c => c = NA) r -> kept env raw r = false).
Proof.
  intros H.
  destruct (load_data_rows _ _ _ _ H)
    as [m [clean [_ [HR [_ [_ [_ [Hrows Hclean]]]]]]]].
  destruct target_not_fixed as [_ HtR].
  assert (Hcells : forall r,
             cell_at (columns out) "Region" (clean r) = raw_cell raw "Region" r
             /\ cell_at (columns out) "Date" (clean r)
                = to_datetime env (raw_cell raw "Date" r)).
  { intros r. destruct (Hclean r) as [HD [_ Hn]]. split; [|assumption].
    apply Hn; auto; congruence. }
  split; [|split; [|split]].
  - rewrite Hrows. apply Forall_forall. intros r' Hr'.
    apply in_map_iff in Hr'. destruct Hr' as [r [<- Hr]].
    apply filter_In in Hr. destruct Hr as [_ Hk].
    destruct (Hcells r) as [-> ->]. unfold kept, notna in Hk.
    apply andb_true_iff in Hk. destruct Hk as [Hk1 Hk2].
    split; now apply negb_true_iff.
  - now exists clean.
  - intros r [Hr|Hr]; unfold kept, notna; rewrite Hr;
      [reflexivity | apply andb_false_r].
  - intros r Hr. unfold kept. now rewrite (raw_cell_blank raw "Region" r Hr).
Qed.

(** The texts of the pattern *)









Lemma match_format_valid (s : string) (d : date) :
  Strptime.match_format s = Some d ->
  Strptime.valid_date (year d) (month d) (day d) = true.
Proof.
  unfold Strptime.match_format.
  destruct (Strptime.regex_matches (list_ascii_of_string s))
    as [|[[[dd mm] yy] rest] tl]; [discriminate|].
  destruct rest; [|discriminate].
  destruct (Strptime.valid_date yy mm dd) eqn:E; [|discriminate].
  intros H. injection H as <-. exact E.
Qed.




(** C7. [to_numeric] turns a rate that is not numeric text into null and
    raises nothing; the rate of a returned row is the input rate made
    numeric; and whether a row is returned does not depend on its rate: a
    row with a Region and a parsable Date is returned, null rate or not. *)
Theorem load_data_coerces_rate :
  (forall s, parse_float s = None -> to_numeric parse_float (Str s) = NA)
  /\ (forall c, to_numeric parse_float c = NA
                \/ exists q, to_numeric parse_float c = Num q)
  /\ (forall cols rows1 rows2 out,
        load_data env parse_float (mkDF cols rows1) = Ok out ->
        exists out', load_data env parse_float (mkDF cols rows2) = Ok out')
  /\ forall raw out,
       load_data env parse_float raw = Ok out ->
       exists m clean,
         rate_label (columns (tidy raw)) = Some m
         /\ rows out = map clean (filter (kept env raw) (rows raw))
         /\ (forall r, cell_at (columns out) target (clean r)
                       = to_numeric parse_float (raw_cell raw m r))
         /\ forall r,
              In r (rows raw) ->
              isna (raw_cell raw "Region" r) = false ->
              isna (to_datetime env (raw_cell raw "Date" r)) = false ->
              In (clean r) (rows out).
Proof.
  split; [intros s Hs; simpl; now rewrite Hs|]. split.
  { intros [|s|q|d]; simpl; eauto. destruct (parse_float s); eauto. }
  split; [intros cols rows1 rows2 out; apply load_data_header|].
  intros raw out H.
  destruct (load_data_rows _ _ _ _ H)
    as [m [clean [Hl [_ [_ [_ [_ [Hrows Hclean]]]]]]]].
  exists m, clean. split; [assumption|]. split; [assumption|].
  split; [intros r; apply (Hclean r)|].
  intros r Hr HR HD. rewrite Hrows. apply in_map, filter_In.
  split; [assumption|]. unfold kept, notna. now rewrite HR, HD.
Qed.

End LoaderClaims.

(** ** Scalar metrics *)

Lemma valid_values_app (l1 l2 : list cell) :
  valid_values (l1 ++ l2) = valid_values l1 ++ valid_values l2.
Proof.
  induction l1 as [|c l1 IH]; simpl; [reflexivity|].
  destruct c; simpl; now rewrite IH.
Qed.

Lemma valid_values_skip (l1 l2 : list cell) (c : cell) :
  isna c = true ->
  valid_values (l1 ++ c :: l2) = valid_values (l1 ++ l2).
Proof.
  intros H. destruct c; try discriminate.
  now rewrite !valid_values_app.
Qed.

(** A row of null rate leaves the non-null rates, and with them the
    maximum, as they are without it.  (The float64 mean of the same rates
    is the library's rounding.) *)
Lemma max_unemp_skips_null_rate (cols : list string)
      (rows1 rows2 : list (list cell)) (r : list cell) :
  isna (cell_at cols unemp_col r) = true ->
  valid_values (series (mkDF cols (rows1 ++ r :: rows2)) unemp_col)
  = valid_values (series (mkDF cols (rows1 ++ rows2)) unemp_col)
  /\ max_unemp (mkDF cols (rows1 ++ r :: rows2))
     = max_unemp (mkDF cols (rows1 ++ rows2)).
Proof.
  intros H. unfold max_unemp, max, series.
  cbn [columns rows]. rewrite !map_app. cbn [map].
  rewrite (valid_values_skip _ _ _ H). split; reflexivity.
Qed.

(** ** Sorting *)

Section SortProps.

Context {A : Type} (before : A -> A -> bool).
Hypothesis before_total : forall a b, before a b = true \/ before b a = true.

Lemma insert_perm (a : A) (l : list A) :
  Permutation (insert before a l) (a :: l).
Proof.
  induction l as [|b t IH]; simpl; [reflexivity|].
  destruct (before a b); [reflexivity|].
  rewrite IH. apply perm_swap.
Qed.

Lemma sort_perm (l : list A) : Permutation (sort before l) l.
Proof.
  induction l as [|a l IH]; simpl; [reflexivity|].
  unfold sort in *. simpl. rewrite insert_perm. now constructor.
Qed.

Lemma insert_HdRel (a b : A) (l : list A) :
  before b a = true ->
  HdRel (ordered before) b l ->
  HdRel (ordered before) b (insert before a l).
Proof.
  intros Hba Hl. destruct l as [|c t]; simpl.
  - now constructor.
  - destruct (before a c); constructor; [assumption|].
    now inversion Hl.
Qed.

Lemma insert_sorted (a : A) (l : list A) :
  Sorted (ordered before) l -> Sorted (ordered before) (insert before a l).
Proof.
  induction l as [|b t IH]; intros Hs; simpl.
  - repeat constructor.
  - destruct (before a b) eqn:Hab.
    + constructor; [assumption | now constructor].
    + inversion Hs as [|? ? Ht Hhd]; subst.
      constructor; [now apply IH|].
      apply insert_HdRel; [|assumption].
      destruct (before_total a b) as [H|H]; [congruence | exact H].
Qed.

Lemma sort_sorted (l : list A) : Sorted (ordered before) (sort before l).
Proof.
  induction l as [|a l IH]; [constructor|].
  unfold sort in *. simpl. now apply insert_sorted.
Qed.

End SortProps.

Lemma rate_before_iff (a b : cell * option Q) :
  rate_before a b = true <-> rate_desc a b.
Proof.
  unfold rate_before, rate_desc.
  destruct (snd a), (snd b); try tauto.
  - apply Qle_bool_iff.
  - split; [discriminate | contradiction].
Qed.

Lemma rate_before_total (a b : cell * option Q) :
  rate_before a b = true \/ rate_before b a = true.
Proof.
  rewrite !rate_before_iff. unfold rate_desc.
  destruct (snd a) as [p|], (snd b) as [q|]; try tauto.
  destruct (Qlt_le_dec p q); [right | left]; auto using Qlt_le_weak.
Qed.

Lemma rate_desc_trans (a b c : cell * option Q) :
  rate_desc a b -> rate_desc b c -> rate_desc a c.
Proof.
  unfold rate_desc.
  destruct (snd a) as [p|], (snd b) as [q|], (snd c) as [r|];
    try tauto. intros H1 H2. now apply Qle_trans with q.
Qed.

(** ** Grouping *)

Lemma cell_eqb_refl (c : cell) : isna c = false -> cell_eqb c c = true.
Proof.
  destruct c as [|s|q|d]; simpl; intros H; try discriminate.
  - apply String.eqb_refl.
  - apply Qeq_bool_refl.
  - unfold date_eqb. now rewrite !Z.eqb_refl.
Qed.

Lemma date_eqb_eq (a b : date) : date_eqb a b = true -> a = b.
Proof.
  unfold date_eqb. rewrite !andb_true_iff, !Z.eqb_eq.
  destruct a, b; simpl; intros [[-> ->] ->]; reflexivity.
Qed.

Lemma cell_eqb_trans (a b c : cell) :
  cell_eqb a b = true -> cell_eqb b c = true -> cell_eqb a c = true.
Proof.
  destruct a, b, c; simpl; try discriminate.
  - intros H1 H2. apply String.eqb_eq in H1, H2. subst. apply String.eqb_refl.
  - apply Qeq_bool_trans.
  - intros H1 H2. apply date_eqb_eq in H1. now subst.
Qed.

Lemma cell_eqb_sym (a b : cell) : cell_eqb a b = cell_eqb b a.
Proof.
  destruct a, b; simpl; try reflexivity.
  - apply String.eqb_sym.
  - apply Qeq_bool_comm.
  - unfold date_eqb. now rewrite (Z.eqb_sym (year d)), (Z.eqb_sym (month d)),
      (Z.eqb_sym (day d)).
Qed.

Lemma unique_incl (l : list cell) (x : cell) : In x (unique l) -> In x l.
Proof.
  induction l as [|c t IH]; simpl; [tauto|].
  intros [->|H]; [now left|]. right. apply IH.
  now apply filter_In in H.
Qed.

Lemma unique_cover (l : list cell) (x : cell) :
  In x l -> isna x = false ->
  exists k, In k (unique l) /\ cell_eqb x k = true.
Proof.
  induction l as [|c t IH]; simpl; [tauto|].
  intros [->|Hin] Hx.
  - exists x. split; [now left | now apply cell_eqb_refl].
  - destruct (IH Hin Hx) as [k [Hk Hxk]].
    destruct (cell_eqb k c) eqn:Hkc.
    + exists c. split; [now left | now apply cell_eqb_trans with k].
    + exists k. split; [|assumption]. right. apply filter_In.
      now rewrite Hkc.
Qed.

(** No two keys of a grouping are equal. *)
Lemma unique_distinct (l : list cell) :
  ForallOrdPairs (fun a b => cell_eqb a b = false) (unique l).
Proof.
  induction l as [|c t IH]; simpl; constructor.
  - apply Forall_forall. intros v Hv. apply filter_In in Hv.
    destruct Hv as [_ Hv]. rewrite cell_eqb_sym. now apply negb_true_iff.
  - clear -IH. induction IH as [|a l Ha _ IH']; simpl; [constructor|].
    destruct (negb (cell_eqb a c)); [|assumption].
    constructor; [|assumption].
    apply Forall_forall. intros v Hv. apply filter_In in Hv.
    rewrite Forall_forall in Ha. now apply Ha.
Qed.

Lemma Sorted_weaken {A} (R1 R2 : A -> A -> Prop) (l : list A) :
  (forall a b, R1 a b -> R2 a b) -> Sorted R1 l -> Sorted R2 l.
Proof.
  intros Himp H. induction H as [|a l Hs IH Hhd]; constructor.
  - assumption.
  - destruct Hhd; constructor. now apply Himp.
Qed.

Lemma groupby_mean_keys (mean : list cell -> option Q) (df : DataFrame)
      (by_ col : string) :
  map fst (groupby_mean mean df by_ col)
  = unique (filter notna (series df by_)).
Proof.
  unfold groupby_mean. rewrite map_map. apply map_id.
Qed.

(** C6. The bar data is the grouping of the table by Region with the mean
    rate of each group, one pair for each distinct Region, rearranged so
    that the mean rates descend; a group without a valid rate has a null
    mean and stands after the others. *)
Theorem region_avg_sorted_descending (mean : list cell -> option Q)
        (df : DataFrame) :
  Permutation (region_avg mean df) (groupby_mean mean df "Region" unemp_col)
  /\ StronglySorted rate_desc (region_avg mean df)
  /\ (forall k m,
        In (k, m) (region_avg mean df) ->
        isna k = false
        /\ In k (series df "Region")
        /\ m = mean (series (region_df df k) unemp_col))
  /\ (forall r,
        In r (rows df) ->
        isna (cell_at (columns df) "Region" r) = false ->
        exists k m,
          In (k, m) (region_avg mean df)
          /\ cell_eqb (cell_at (columns df) "Region" r) k = true)
  /\ ForallOrdPairs (fun a b => cell_eqb a b = false)
                    (map fst (groupby_mean mean df "Region" unemp_col)).
Proof.
  assert (Hperm : Permutation (region_avg mean df)
                              (groupby_mean mean df "Region" unemp_col))
    by apply sort_perm.
  split; [assumption|]. split; [|split; [|split]].
  - apply Sorted_StronglySorted.
    + intros a b c. apply rate_desc_trans.
    + apply Sorted_weaken with (R1 := ordered rate_before).
      * intros a b. apply rate_before_iff.
      * apply sort_sorted. apply rate_before_total.
  - intros k m Hin. apply (Permutation_in _ Hperm) in Hin.
    unfold groupby_mean in Hin. apply in_map_iff in Hin.
    destruct Hin as [k' [E Hk]]. injection E as -> <-.
    apply unique_incl, filter_In in Hk. destruct Hk as [Hk Hn].
    split; [now apply negb_true_iff in Hn|]. split; [assumption|].
    reflexivity.
  - intros r Hr Hn.
    destruct (unique_cover (filter notna (series df "Region"))
                           (cell_at (columns df) "Region" r))
      as [k [Hk Hrk]]; [|assumption|].
    { apply filter_In. split.
      - unfold series. now apply in_map.
      - unfold notna. now rewrite Hn. }
    exists k, (mean (series (region_df df k) unemp_col)).
    split; [|assumption].
    apply (Permutation_in _ (Permutation_sym Hperm)).
    unfold groupby_mean. apply in_map_iff. exists k. split; [reflexivity|].
    assumption.
  - rewrite groupby_mean_keys. apply unique_distinct.
Qed.

(** ** Memoisation *)

(** C8. Loading twice gives the same table: once a call has returned a
    table, the next call returns that table from the cache and leaves the
    session as it is, the read count with it; the first call of a session
    reads the file once. *)
Theorem cached_load_data_idempotent (env : nat -> pandas)
        (parse_float : string -> option Q)
        (s s1 : session) (df : DataFrame) :
  cached_load_data env parse_float s = (Ok df, s1) ->
  cached_load_data env parse_float s1 = (Ok df, s1)
  /\ cache s1 = Some df
  /\ file s1 = file s
  /\ (cache s = None ->
      load_data (env (reads s)) parse_float (file s) = Ok df
      /\ reads s1 = S (reads s)).
Proof.
  unfold cached_load_data, read_csv.
  destruct (cache s) as [c|] eqn:Ec.
  - intros H. injection H as <- <-. rewrite Ec.
    split; [reflexivity|]. split; [reflexivity|]. split; [reflexivity|].
    discriminate.
  - destruct (load_data (env (reads s)) parse_float (file s)) as [d|e] eqn:El;
      [|discriminate].
    intros H. injection H as <- <-. cbn [cache file reads].
    split; [reflexivity|]. split; [reflexivity|]. split; [reflexivity|].
    intros _. split; reflexivity.
Qed.

(** ** The region view *)

(** C9. On a loaded table, a selection without rows shows the warning
    and no chart, and a selection with rows shows the line chart of the
    selection with the lockdown marker; the view is a value in both
    cases. *)
Theorem region_trend_warns_when_empty (env : pandas)
        (parse_float : string -> option Q)
        (raw df : DataFrame) (region : cell) :
  load_data env parse_float raw = Ok df ->
  (rows (region_df df region) = [] ->
   region_trend df region
   = StWarning "No data available for the selected region.")
  /\ (rows (region_df df region) <> [] ->
      region_trend df region
      = StPlotlyChart
          (add_lockdown_vline
             (px_line (region_df df region) "Date" unemp_col true)
             "2020-03-01")).
Proof.
  intros H.
  destruct (load_data_rows _ _ _ _ H) as [m [clean [_ [_ [HD _]]]]].
  unfold region_trend, empty. cbv zeta.
  change (columns (region_df df region)) with (columns df).
  destruct (columns df) as [|c cs]; [contradiction|].
  cbn [List.length Nat.eqb orb]. split.
  - intros ->. reflexivity.
  - intros Hne. destruct (rows (region_df df region)); [congruence|].
    reflexivity.
Qed.

(** ** The statements on the sample inputs *)

Example load_sample :
  load_data Sample.env Decimal.parse Sample.raw = Ok Sample.cleaned.
Proof. vm_compute. reflexivity. Qed.

Example load_sample_exact :
  load_data Sample.env Decimal.parse Sample.exact = Ok Sample.exact_cleaned.
Proof. vm_compute. reflexivity. Qed.

Example strptime_day_first :
  Strptime.match_format "01-03-2020" = Some (mkDate 2020 3 1)
  /\ Strptime.match_format "1-3-2020" = Some (mkDate 2020 3 1)
  /\ Strptime.match_format "29-02-2020" = Some (mkDate 2020 2 29).
Proof. repeat split. Qed.

Example strptime_rejects :
  Strptime.match_format "2020/03/01" = None
  /\ Strptime.match_format "2020-03-01" = None
  /\ Strptime.match_format "32-03-2020" = None
  /\ Strptime.match_format "29-02-2021" = None
  /\ Strptime.match_format "01-03-20" = None
  /\ Strptime.match_format "01-03-2020 " = None.
Proof. repeat split. Qed.

Example kept_sample :
  map (kept Sample.env Sample.raw) (rows Sample.raw)
  = [true; false; false; true; false; true; true].
Proof. reflexivity. Qed.

Example metrics_sample :
  avg_unemp exact_mean Sample.cleaned = Some (172500 # 30000)%Q
  /\ max_unemp Sample.cleaned = Some (1025 # 100)%Q.
Proof. vm_compute. split; reflexivity. Qed.

Example region_avg_sample :
  region_avg exact_mean Sample.cleaned
  = [ (Str "Bihar", Some (1025 # 100)%Q);
      (Str "Goa", Some (700 # 200)%Q);
      (Str "Assam", None) ].
Proof. vm_compute. reflexivity. Qed.

Lemma load_data_locates_rate_column_witness :
  load_data Sample.env Decimal.parse Sample.no_rate
  = Raise (KeyError ["Unemployment column not found in CSV"])
  /\ exists l1 l2,
       columns (tidy Sample.raw)
       = l1 ++ "Estimated Unemployment Rate (%) original" :: l2
       /\ matches l1 = []
       /\ PyStr.contains "Unemployment Rate"
                         "Estimated Unemployment Rate (%) original" = true
       /\ stable_rate_name (tidy Sample.raw)
          = Ok (mkDF (l1 ++ target :: l2) (rows (tidy Sample.raw)))
       /\ forall out, load_data Sample.env Decimal.parse Sample.raw = Ok out ->
                      columns out = l1 ++ target :: l2.
Proof.
  split.
  - exact (load_data_locates_rate_column
             Sample.env Decimal.parse Sample.no_rate eq_refl).
  - exact (load_data_locates_rate_column
             Sample.env Decimal.parse Sample.raw eq_refl).
Defined.

Lemma load_data_region_date_notnull_witness :
  load_data Sample.env Decimal.parse Sample.raw = Ok Sample.cleaned
  /\ Forall (fun r =>
               isna (cell_at (columns Sample.cleaned) "Region" r) = false
               /\ isna (cell_at (columns Sample.cleaned) "Date" r) = false)
            (rows Sample.cleaned).
Proof.
  assert (H : load_data Sample.env Decimal.parse Sample.raw = Ok Sample.cleaned)
    by (vm_compute; reflexivity).
  split; [exact H|].
  exact (proj1 (load_data_region_date_notnull Sample.env Decimal.parse _ _ H)).
Defined.


Lemma region_avg_sorted_descending_witness :
  In (Str "Goa", Some (700 # 200)%Q) (region_avg exact_mean Sample.cleaned)
  /\ Some (700 # 200)%Q
     = exact_mean (series (region_df Sample.cleaned (Str "Goa")) unemp_col).
Proof.
  assert (H : In (Str "Goa", Some (700 # 200)%Q)
                 (region_avg exact_mean Sample.cleaned))
    by (vm_compute; tauto).
  split; [exact H|].
  destruct (region_avg_sorted_descending exact_mean Sample.cleaned)
    as [_ [_ [Hk _]]].
  exact (proj2 (proj2 (Hk _ _ H))).
Defined.

Lemma load_data_coerces_rate_witness :
  Decimal.parse "abc" = None
  /\ to_numeric Decimal.parse (Str "abc") = NA.
Proof.
  split; [reflexivity|].
  exact (proj1 (load_data_coerces_rate Sample.env Decimal.parse) "abc" eq_refl).
Defined.

Lemma cached_load_data_idempotent_witness :
  cached_load_data Sample.envs Decimal.parse Sample.fresh
  = (Ok Sample.cleaned, Sample.warm)
  /\ cached_load_data Sample.envs Decimal.parse Sample.warm
     = (Ok Sample.cleaned, Sample.warm).
Proof.
  assert (H : cached_load_data Sample.envs Decimal.parse Sample.fresh
              = (Ok Sample.cleaned, Sample.warm))
    by (vm_compute; reflexivity).
  split; [exact H|].
  exact (proj1 (cached_load_data_idempotent
                  Sample.envs Decimal.parse _ _ _ H)).
Defined.

Lemma region_trend_warns_when_empty_witness :
  load_data Sample.env Decimal.parse Sample.raw = Ok Sample.cleaned
  /\ rows (region_df Sample.cleaned (Str "Kerala")) = []
  /\ region_trend Sample.cleaned (Str "Kerala")
     = StWarning "No data available for the selected region.".
Proof.
  assert (H : load_data Sample.env Decimal.parse Sample.raw = Ok Sample.cleaned)
    by (vm_compute; reflexivity).
  split; [exact H|]. split; [reflexivity|].
  exact (proj1 (region_trend_warns_when_empty
                  Sample.env Decimal.parse _ _ (Str "Kerala") H) eq_refl).
Defined.

(** * Further properties of the loader *)

Lemma rate_label_cases (cols : list string) (m : string) :
  rate_label cols = Some m ->
  (m = target /\ PyStr.mem target cols = true)
  \/ (PyStr.mem target cols = false /\ exists ms, matches cols = m :: ms).
Proof.
  unfold rate_label. destruct (PyStr.mem target cols).
  - intros H. injection H as <-. now left.
  - destruct (matches cols) as [|m' ms]; simpl; [discriminate|].
    intros H. injection H as <-. right. split; [reflexivity|]. now exists ms.
Qed.

Lemma rate_label_not_fixed (cols : list string) (m : string) :
  rate_label cols = Some m -> m <> "Date" /\ m <> "Region".
Proof.
  intros H. destruct (rate_label_cases _ _ H) as [[-> _]|[_ [ms Hm]]].
  - apply target_not_fixed.
  - apply match_not_fixed. now apply (matches_In _ _ _ Hm).
Qed.

Lemma stable_rate_name_outcome (df : DataFrame) :
  match rate_label (columns df) with
  | None =>
      stable_rate_name df
      = Raise (KeyError ["Unemployment column not found in CSV"])
  | Some _ => exists df1, stable_rate_name df = Ok df1
  end.
Proof.
  unfold rate_label, stable_rate_name.
  destruct (PyStr.mem target (columns df)); simpl; [eauto|].
  destruct (matches (columns df)); simpl; eauto.
Qed.

(** The fixed names are columns after lines 24-29 exactly when they are
    trimmed labels of the input. *)
Lemma stable_fixed_names (raw df1 : DataFrame) (n : string) :
  stable_rate_name (tidy raw) = Ok df1 ->
  n = "Date" \/ n = "Region" ->
  PyStr.mem n (columns df1) = PyStr.mem n (labels raw).
Proof.
  intros E Hn. destruct (cell_at_stable raw df1 E) as [m [Hl [_ [Hcols _]]]].
  destruct (rate_label_not_fixed _ _ Hl) as [HmD HmR].
  destruct target_not_fixed as [HtD HtR].
  assert (Hiff : In n (columns df1) <-> In n (labels raw)).
  { rewrite Hcols. split.
    - intros [->|[_ H]]; [destruct Hn; congruence | assumption].
    - intros H. right. split; [destruct Hn; congruence | assumption]. }
  destruct (PyStr.mem n (labels raw)) eqn:E2.
  - apply mem_In, Hiff. now apply mem_In.
  - apply mem_false. intros H. apply Hiff, mem_In in H. congruence.
Qed.

Section LoaderExtras.

Variable env : pandas.
Variable parse_float : string -> option Q.

(** The outcome of the loader, read off the trimmed header. *)
Lemma load_data_by_header (raw : DataFrame) :
  match rate_label (columns (tidy raw)) with
  | None =>
      load_data env parse_float raw
      = Raise (KeyError ["Unemployment column not found in CSV"])
  | Some _ =>
      if negb (PyStr.mem "Date" (labels raw)) then
        load_data env parse_float raw = Raise (KeyError ["Date"])
      else if negb (PyStr.mem "Region" (labels raw)) then
        load_data env parse_float raw = Raise (KeyError ["Region"])
      else exists out, load_data env parse_float raw = Ok out
  end.
Proof.
  pose proof (stable_rate_name_outcome (tidy raw)) as Hs.
  destruct (rate_label (columns (tidy raw))) as [m|].
  - destruct Hs as [df1 E1].
    pose proof (stable_fixed_names raw df1 "Date" E1 (or_introl eq_refl)) as HD.
    pose proof (stable_fixed_names raw df1 "Region" E1 (or_intror eq_refl))
      as HR.
    destruct (PyStr.mem "Date" (labels raw)) eqn:ED; cbn [negb].
    + destruct (PyStr.mem "Region" (labels raw)) eqn:ER; cbn [negb].
      * eexists. now apply (load_data_complete env parse_float raw df1).
      * unfold load_data. cbv zeta. cbn [columns set_columns].
        fold (labels raw). fold (tidy raw). rewrite E1. cbn [bind].
        unfold getitem at 1. rewrite HD. cbn [bind].
        rewrite (setitem_map (to_datetime env) "Date" df1 HD).
        unfold dropna. rewrite columns_map_column. cbn [filter].
        rewrite HR, HD. reflexivity.
    + unfold load_data. cbv zeta. cbn [columns set_columns].
      fold (labels raw). fold (tidy raw). rewrite E1. cbn [bind].
      unfold getitem at 1. rewrite HD. reflexivity.
  - unfold load_data. cbv zeta. cbn [columns set_columns].
    fold (labels raw). fold (tidy raw). rewrite Hs. reflexivity.
Qed.

(** X1. What [load_data] does is decided by the trimmed header, in this
    order: without a rate column it raises the KeyError of line 28;
    else without "Date" it raises KeyError('Date') (line 32); else without
    "Region" it raises KeyError(['Region']) (line 35); else it returns a
    table. *)
Theorem load_data_outcome (raw : DataFrame) :
  match rate_label (columns (tidy raw)) with
  | None =>
      load_data env parse_float raw
      = Raise (KeyError ["Unemployment column not found in CSV"])
  | Some _ =>
      if negb (PyStr.mem "Date" (labels raw)) then
        load_data env parse_float raw = Raise (KeyError ["Date"])
      else if negb (PyStr.mem "Region" (labels raw)) then
        load_data env parse_float raw = Raise (KeyError ["Region"])
      else exists out, load_data env parse_float raw = Ok out
  end.
Proof. exact (load_data_by_header raw). Qed.

(** X2. The loader writes two columns only.  The returned labels are the
    trimmed input labels, with the rate label replaced by the stable name;
    the returned rows are the kept input rows in their order; and under
    every label other than "Date" and the rate, a returned row holds what
    the input row held in the first column of that trimmed label. *)
Theorem load_data_passthrough (raw out : DataFrame) :
  load_data env parse_float raw = Ok out ->
  exists m clean,
    rate_label (columns (tidy raw)) = Some m
    /\ (forall n, In n (columns out)
                  <-> n = target \/ (n <> m /\ In n (labels raw)))
    /\ rows out = map clean (filter (kept env raw) (rows raw))
    /\ List.length (rows out) <= List.length (rows raw)
    /\ forall r n,
         In n (columns out) -> n <> "Date" -> n <> target ->
         cell_at (columns out) n (clean r) = raw_cell raw n r.
Proof.
  intros H.
  destruct (load_data_rows _ _ _ _ H)
    as [m [clean [Hl [_ [_ [_ [Hcols [Hrows Hclean]]]]]]]].
  exists m, clean. split; [assumption|]. split; [assumption|].
  split; [assumption|]. split.
  - rewrite Hrows, length_map. apply filter_length_le.
  - intros r n. apply (Hclean r).
Qed.

(** X3. The rate column of the returned table is a float column: each of
    its cells is a number or null, never text. *)
Theorem load_data_rate_is_numeric (raw out : DataFrame) :
  load_data env parse_float raw = Ok out ->
  Forall (fun r => cell_at (columns out) target r = NA
                   \/ exists q, cell_at (columns out) target r = Num q)
         (rows out).
Proof.
  intros H.
  destruct (load_data_rows _ _ _ _ H)
    as [m [clean [_ [_ [_ [_ [_ [Hrows Hclean]]]]]]]].
  rewrite Hrows. apply Forall_forall. intros r' Hr'.
  apply in_map_iff in Hr'. destruct Hr' as [r [<- _]].
  destruct (Hclean r) as [_ [-> _]].
  destruct (raw_cell raw m r) as [|s|q|d]; simpl; eauto.
  destruct (parse_float s); eauto.
Qed.

End LoaderExtras.

Section LoaderHeader.

Variable env : pandas.
Variable parse_float : string -> option Q.

(** C10. Precedence of the renaming.  With the exact name
    "Estimated Unemployment Rate (%)" among the labels, lines 24-29 return
    the frame as it is, whatever else contains "Unemployment Rate".
    Without it, they return a frame in which the position of the first
    label containing "Unemployment Rate" carries the exact name and every
    other position its own label, the later labels that contain
    "Unemployment Rate" among them.  The table [load_data] returns has
    these labels, and it does return one when "Date" and "Region" are
    labels. *)
Theorem load_data_rename_precedence (raw : DataFrame) :
  (PyStr.mem target (columns (tidy raw)) = true ->
   stable_rate_name (tidy raw) = Ok (tidy raw)
   /\ forall out, load_data env parse_float raw = Ok out ->
                  columns out = columns (tidy raw))
  /\ (PyStr.mem target (columns (tidy raw)) = false ->
      forall m ms,
        matches (columns (tidy raw)) = m :: ms ->
        exists k df1,
          index_of m (columns (tidy raw)) = Some k
          /\ stable_rate_name (tidy raw) = Ok df1
          /\ rows df1 = rows (tidy raw)
          /\ nth_error (columns df1) k = Some target
          /\ (forall i, i <> k ->
                nth_error (columns df1) i
                = nth_error (columns (tidy raw)) i)
          /\ (forall c, In c ms -> In c (columns df1))
          /\ (In "Date" (labels raw) -> In "Region" (labels raw) ->
              exists out, load_data env parse_float raw = Ok out)
          /\ forall out, load_data env parse_float raw = Ok out ->
                         columns out = columns df1).
Proof.
  split.
  - intros Hm. assert (Es : stable_rate_name (tidy raw) = Ok (tidy raw)).
    { unfold stable_rate_name. now rewrite Hm. }
    split; [assumption|]. intros out Hout.
    destruct (load_data_columns _ _ _ _ Hout) as [df1 [E1 ->]].
    rewrite Es in E1. now injection E1 as <-.
  - intros Hm m ms Em.
    pose proof (proj1 (mem_false _ _) Hm) as Hn.
    destruct (fallback_columns _ _ _ (NoDup_columns_tidy raw) Hn Em)
      as [l1 [l2 [E [_ [H2 [Hm1 [_ [Hr _]]]]]]]].
    set (df1 := mkDF (l1 ++ target :: l2) (rows (tidy raw))).
    assert (Es : stable_rate_name (tidy raw) = Ok df1).
    { unfold stable_rate_name. rewrite Hm, Em. cbn [negb].
      unfold rename. now rewrite Hr. }
    exists (List.length l1), df1.
    split; [rewrite E; now apply index_of_app_fresh|].
    split; [assumption|]. split; [reflexivity|]. cbn [columns df1].
    split; [rewrite nth_error_app2 by lia; now rewrite Nat.sub_diag|].
    split; [intros i Hi; rewrite E; now apply nth_error_replace|].
    split.
    { intros c Hc. apply in_or_app. right. right.
      rewrite <- H2 in Hc. unfold matches in Hc.
      now apply filter_In in Hc. }
    split.
    + intros HD HR. eexists.
      apply (load_data_complete env parse_float raw df1 Es).
      * rewrite (stable_fixed_names raw df1 "Date" Es (or_introl eq_refl)).
        now apply mem_In.
      * rewrite (stable_fixed_names raw df1 "Region" Es (or_intror eq_refl)).
        now apply mem_In.
    + intros out Hout.
      destruct (load_data_columns _ _ _ _ Hout) as [df1' [E1 ->]].
      rewrite Es in E1. now injection E1 as <-.
Qed.

(** C3. What the loader returns for the data set's own header, whose
    seventh name repeats "Region".  The reader delivers that column under
    the label "Region.1", so line 21 finds no repeated label and drops
    nothing: the table returned has all nine columns, the second Region
    column among them; and on any frame a column labelled "Region.1" is
    returned with its values. *)
Theorem load_data_keeps_numbered_duplicate :
  (exists out,
     load_data env parse_float Sample.as_read = Ok out
     /\ columns out = columns Sample.as_read
     /\ In "Region.1" (columns out)
     /\ List.length (columns out) = 9)
  /\ forall raw out,
       load_data env parse_float raw = Ok out ->
       In "Region.1" (labels raw) ->
       In "Region.1" (columns out)
       /\ exists clean,
            rows out = map clean (filter (kept env raw) (rows raw))
            /\ forall r, cell_at (columns out) "Region.1" (clean r)
                         = raw_cell raw "Region.1" r.
Proof.
  split.
  - pose proof (load_data_by_header env parse_float Sample.as_read) as Hh.
    change (rate_label (columns (tidy Sample.as_read)))
      with (Some target) in Hh.
    change (PyStr.mem "Date" (labels Sample.as_read)) with true in Hh.
    change (PyStr.mem "Region" (labels Sample.as_read)) with true in Hh.
    cbn [negb] in Hh. destruct Hh as [out Hout]. exists out.
    split; [exact Hout|].
    destruct (load_data_columns _ _ _ _ Hout) as [df1 [E1 Ec]].
    change (stable_rate_name (tidy Sample.as_read))
      with (Ok (tidy Sample.as_read)) in E1.
    injection E1 as <-. rewrite Ec.
    split; [reflexivity|]. split; [|reflexivity].
    cbv. tauto.
  - intros raw out H Hin.
    destruct (load_data_rows _ _ _ _ H)
      as [m [clean [Hl [_ [_ [_ [Hcols [Hrows Hclean]]]]]]]].
    assert (Hne : "Region.1" <> m).
    { destruct (rate_label_cases _ _ Hl) as [[-> _]|[_ [ms Hm]]].
      - discriminate.
      - intros <-. apply matches_In in Hm. destruct Hm as [_ Hm].
        vm_compute in Hm. discriminate. }
    assert (Hout : In "Region.1" (columns out)).
    { apply Hcols. right. split; assumption. }
    split; [assumption|]. exists clean. split; [assumption|].
    intros r. destruct (Hclean r) as [_ [_ Hn]].
    apply Hn; [assumption | discriminate | discriminate].
Qed.

End LoaderHeader.

(** ** Trimmed labels *)

Lemma lstrip_chars_length (l : list ascii) :
  List.length (PyStr.lstrip_chars l) <= List.length l.
Proof.
  induction l as [|c t IH]; simpl; [lia|].
  destruct (PyStr.isspace c); simpl; lia.
Qed.

Lemma lstrip_chars_idem (l : list ascii) :
  PyStr.lstrip_chars (PyStr.lstrip_chars l) = PyStr.lstrip_chars l.
Proof.
  induction l as [|c t IH]; simpl; [reflexivity|].
  destruct (PyStr.isspace c) eqn:E; [assumption|].
  simpl. now rewrite E.
Qed.

Lemma lstrip_chars_fixed_head (c : ascii) (t : list ascii) :
  PyStr.lstrip_chars (c :: t) = c :: t -> PyStr.isspace c = false.
Proof.
  simpl. destruct (PyStr.isspace c); [|reflexivity].
  intros H. pose proof (lstrip_chars_length t) as Hl.
  rewrite H in Hl. simpl in Hl. lia.
Qed.

Lemma lstrip_chars_snoc (l : list ascii) (c : ascii) :
  PyStr.isspace c = false ->
  exists u, PyStr.lstrip_chars (l ++ [c]) = u ++ [c].
Proof.
  intros Hc. induction l as [|a l IH]; simpl.
  - rewrite Hc. now exists [].
  - destruct (PyStr.isspace a); [assumption|]. now exists (a :: l).
Qed.

(** Trimming the right end leaves a trimmed left end alone. *)
Lemma rstrip_keeps_head (l : list ascii) :
  PyStr.lstrip_chars l = l ->
  PyStr.lstrip_chars (rev (PyStr.lstrip_chars (rev l)))
  = rev (PyStr.lstrip_chars (rev l)).
Proof.
  destruct l as [|c t]; [reflexivity|].
  intros H. apply lstrip_chars_fixed_head in H. simpl rev.
  destruct (lstrip_chars_snoc (rev t) c H) as [u ->].
  rewrite rev_app_distr. simpl. now rewrite H.
Qed.

Lemma strip_idempotent (s : string) :
  PyStr.strip (PyStr.strip s) = PyStr.strip s.
Proof.
  unfold PyStr.strip. rewrite list_ascii_of_string_of_list_ascii.
  set (l1 := PyStr.lstrip_chars (list_ascii_of_string s)).
  assert (H1 : PyStr.lstrip_chars l1 = l1) by apply lstrip_chars_idem.
  rewrite (rstrip_keeps_head l1 H1), rev_involutive, lstrip_chars_idem.
  reflexivity.
Qed.

(** X4. No label of the returned table has white space at either end:
    trimming a returned label changes nothing. *)
Theorem load_data_labels_trimmed (env : pandas)
        (parse_float : string -> option Q)
        (raw out : DataFrame) :
  load_data env parse_float raw = Ok out ->
  Forall (fun c => PyStr.strip c = c) (columns out).
Proof.
  intros H.
  destruct (load_data_rows _ _ _ _ H) as [m [clean [_ [_ [_ [_ [Hcols _]]]]]]].
  apply Forall_forall. intros n Hn. apply Hcols in Hn.
  destruct Hn as [->|[_ Hn]]; [reflexivity|].
  unfold labels in Hn. apply in_map_iff in Hn. destruct Hn as [c [<- _]].
  apply strip_idempotent.
Qed.

(** ** Calendar dates *)

Lemma strptime_valid (in_bounds : date -> bool) (s : string) (d : date) :
  Strptime.strptime in_bounds s = Some d ->
  Strptime.valid_date (year d) (month d) (day d) = true.
Proof.
  unfold Strptime.strptime.
  destruct (Strptime.match_format s) as [d'|] eqn:E; [|discriminate].
  destruct (in_bounds d'); [|discriminate].
  intros H. injection H as <-. now apply (match_format_valid s).
Qed.

(** X5. When the reader delivers the Date column as text, numbers or
    nulls, the Date of every returned row is a date of the calendar: year
    1 to 9999, month 1 to 12, and a day that month has in that year. *)
Theorem load_data_dates_in_calendar (env : pandas)
        (parse_float : string -> option Q)
        (raw out : DataFrame) :
  load_data env parse_float raw = Ok out ->
  (forall r d, In r (rows raw) -> raw_cell raw "Date" r <> Timestamp d) ->
  Forall (fun r => exists d,
            cell_at (columns out) "Date" r = Timestamp d
            /\ (1 <= year d <= 9999)%Z
            /\ (1 <= month d <= 12)%Z
            /\ (1 <= day d <= Strptime.days_in_month (year d) (month d))%Z)
         (rows out).
Proof.
  intros H Hraw.
  destruct (load_data_rows _ _ _ _ H)
    as [m [clean [_ [_ [_ [_ [_ [Hrows Hclean]]]]]]]].
  rewrite Hrows. apply Forall_forall. intros r' Hr'.
  apply in_map_iff in Hr'. destruct Hr' as [r [<- Hr]].
  apply filter_In in Hr. destruct Hr as [Hin Hk].
  destruct (Hclean r) as [-> _]. unfold kept in Hk.
  apply andb_true_iff in Hk. destruct Hk as [_ Hk].
  specialize (Hraw r).
  assert (Hv : forall d,
             Strptime.valid_date (year d) (month d) (day d) = true ->
             (1 <= year d <= 9999)%Z /\ (1 <= month d <= 12)%Z
             /\ (1 <= day d
                 <= Strptime.days_in_month (year d) (month d))%Z).
  { intros d Hd. unfold Strptime.valid_date in Hd.
    rewrite !andb_true_iff, !Z.leb_le in Hd. lia. }
  destruct (raw_cell raw "Date" r) as [|s|q|d]; simpl in *;
    try discriminate.
  - destruct (String.eqb s "now" || String.eqb s "today").
    + exists (clock env). split; [reflexivity|].
      apply Hv, clock_valid.
    + destruct (Strptime.strptime (in_bounds env) s) as [d|] eqn:Es;
        [|discriminate].
      exists d. split; [reflexivity|].
      apply Hv. now apply strptime_valid in Es.
  - exfalso. now apply (Hraw d Hin).
Qed.

(** ** Reading back a written date *)

Lemma digit_char_ok (k : Z) :
  (0 <= k <= 9)%Z ->
  Strptime.isdigit (digit_char k) = true /\ Strptime.val (digit_char k) = k.
Proof.
  intros H.
  assert (Hk : In k (map Z.of_nat (seq 0 10))).
  { apply in_map_iff. exists (Z.to_nat k). split; [lia|].
    apply in_seq. lia. }
  cbv in Hk.
  repeat (destruct Hk as [<-|Hk]; [split; reflexivity|]). contradiction.
Qed.

Lemma directive_Y_four_digits (y : Z) :
  (0 <= y <= 9999)%Z ->
  Strptime.directive_Y (four_digits y) = [(y, [])].
Proof.
  intros H. unfold four_digits, Strptime.directive_Y.
  destruct (digit_char_ok (y / 1000)) as [H1 V1];
    [Z.div_mod_to_equations; lia|].
  destruct (digit_char_ok (y / 100 mod 10)) as [H2 V2];
    [pose proof (Z.mod_pos_bound (y / 100) 10); lia|].
  destruct (digit_char_ok (y / 10 mod 10)) as [H3 V3];
    [pose proof (Z.mod_pos_bound (y / 10) 10); lia|].
  destruct (digit_char_ok (y mod 10)) as [H4 V4];
    [pose proof (Z.mod_pos_bound y 10); lia|].
  rewrite H1, H2, H3, H4, V1, V2, V3, V4. cbn [andb].
  repeat f_equal. Z.div_mod_to_equations. lia.
Qed.

Lemma directive_d_two_digits (d : Z) (rest : list ascii) :
  (1 <= d <= 31)%Z ->
  exists tl,
    Strptime.directive_d (two_digits d ++ "-"%char :: rest)
    = (d, "-"%char :: rest) :: tl.
Proof.
  intros H.
  assert (Hd : In d (map Z.of_nat (seq 1 31))).
  { apply in_map_iff. exists (Z.to_nat d). split; [lia|].
    apply in_seq. lia. }
  cbv in Hd.
  repeat (destruct Hd as [<-|Hd]; [cbv; eexists; reflexivity|]).
  contradiction.
Qed.

Lemma directive_m_two_digits (m : Z) (rest : list ascii) :
  (1 <= m <= 12)%Z ->
  exists tl,
    Strptime.directive_m (two_digits m ++ "-"%char :: rest)
    = (m, "-"%char :: rest) :: tl.
Proof.
  intros H.
  assert (Hm : In m (map Z.of_nat (seq 1 12))).
  { apply in_map_iff. exists (Z.to_nat m). split; [lia|].
    apply in_seq. lia. }
  cbv in Hm.
  repeat (destruct Hm as [<-|Hm]; [cbv; eexists; reflexivity|]).
  contradiction.
Qed.

Lemma days_in_month_le_31 (y m : Z) : (Strptime.days_in_month y m <= 31)%Z.
Proof.
  unfold Strptime.days_in_month.
  destruct (m =? 2)%Z; [destruct (Strptime.is_leap y); lia|].
  destruct ((m =? 4) || (m =? 6) || (m =? 9) || (m =? 11))%Z; lia.
Qed.

Lemma match_format_reads_back (y m d : Z) :
  Strptime.valid_date y m d = true ->
  Strptime.match_format (dmy_text (mkDate y m d)) = Some (mkDate y m d).
Proof.
  intros Hv. pose proof Hv as Hv'. unfold Strptime.valid_date in Hv'.
  rewrite !andb_true_iff, !Z.leb_le in Hv'.
  pose proof (days_in_month_le_31 y m) as Hdm.
  unfold Strptime.match_format, dmy_text. cbn [year month day].
  rewrite list_ascii_of_string_of_list_ascii.
  unfold Strptime.regex_matches.
  destruct (directive_d_two_digits d
              (two_digits m ++ "-"%char :: four_digits y)) as [t1 ->];
    [lia|].
  cbn [flat_map Strptime.literal Strptime.char Ascii.eqb Bool.eqb app].
  destruct (directive_m_two_digits m (four_digits y)) as [t2 ->]; [lia|].
  cbn [flat_map Strptime.literal Strptime.char Ascii.eqb Bool.eqb app].
  rewrite directive_Y_four_digits by lia.
  cbn [map app]. now rewrite Hv.
Qed.

Lemma dmy_text_not_clock (dt : date) :
  String.eqb (dmy_text dt) "now" || String.eqb (dmy_text dt) "today" = false.
Proof.
  apply orb_false_iff. split; apply String.eqb_neq; intros E;
    unfold dmy_text, two_digits in E; simpl in E; inversion E.
Qed.

(** X6. Every date of the calendar from 1677-09-22 to 2262-04-11, the
    dates a Timestamp of any unit holds, written day-month-year with two,
    two and four digits, is read by line 32 as that date, the day first. *)
Theorem strptime_reads_back (env : pandas) (y m d : Z) :
  Strptime.valid_date y m d = true ->
  Strptime.ns_range (mkDate y m d) = true ->
  to_datetime env (Str (dmy_text (mkDate y m d))) = Timestamp (mkDate y m d).
Proof.
  intros Hv Hr. unfold to_datetime. rewrite dmy_text_not_clock.
  unfold Strptime.strptime. rewrite (match_format_reads_back y m d Hv).
  now rewrite (in_bounds_ns env _ Hr).
Qed.

(** * Further properties of the views *)

(** ** The two metrics *)

Lemma In_valid_values (l : list cell) (q : Q) :
  In q (valid_values l) <-> In (Num q) l.
Proof.
  induction l as [|c t IH]; simpl; [tauto|].
  destruct c; simpl; rewrite IH; split; intros H;
    try (now right); try (destruct H as [H|H]; [discriminate | assumption]).
  - destruct H as [->|H]; [now left | now right].
  - destruct H as [H|H]; [injection H as ->; now left | now right].
Qed.

Lemma Qmax2_cases (a b : Q) :
  (Qmax2 a b = a \/ Qmax2 a b = b)
  /\ (a <= Qmax2 a b)%Q /\ (b <= Qmax2 a b)%Q.
Proof.
  unfold Qmax2. destruct (Qle_bool a b) eqn:E.
  - apply Qle_bool_iff in E. repeat split; auto. apply Qle_refl.
  - repeat split; auto; [apply Qle_refl|].
    destruct (Qlt_le_dec b a) as [H|H]; [now apply Qlt_le_weak|].
    apply Qle_bool_iff in H. congruence.
Qed.

Lemma fold_left_Qmax2 (vs : list Q) (v0 : Q) :
  In (fold_left Qmax2 vs v0) (v0 :: vs)
  /\ forall v, In v (v0 :: vs) -> (v <= fold_left Qmax2 vs v0)%Q.
Proof.
  revert v0. induction vs as [|w vs IH]; intros v0; simpl.
  - split; [now left|]. intros v [<-|[]]. apply Qle_refl.
  - destruct (IH (Qmax2 v0 w)) as [Hin Hle].
    destruct (Qmax2_cases v0 w) as [Hc [H0 Hw]]. split.
    + destruct Hin as [E|Hin]; [|now right; right].
      rewrite <- E. destruct Hc as [->| ->]; [now left | right; now left].
    + intros v [<-|[<-|Hv]].
      * apply Qle_trans with (Qmax2 v0 w); [assumption|].
        apply Hle. now left.
      * apply Qle_trans with (Qmax2 v0 w); [assumption|].
        apply Hle. now left.
      * apply Hle. now right.
Qed.

Lemma max_spec (l : list cell) (M : Q) :
  max l = Some M ->
  In M (valid_values l) /\ forall v, In v (valid_values l) -> (v <= M)%Q.
Proof.
  unfold max. destruct (valid_values l) as [|v vs]; [discriminate|].
  intros H. injection H as <-. apply fold_left_Qmax2.
Qed.

Lemma In_series (df : DataFrame) (name : string) (c : cell) :
  In c (series df name)
  <-> exists r, In r (rows df) /\ cell_at (columns df) name r = c.
Proof.
  unfold series. rewrite in_map_iff. split; intros [r [H1 H2]]; eauto.
Qed.

(** X7. The peak rate is the rate of some row, and no row has a larger
    rate. *)
Theorem max_unemp_is_attained (df : DataFrame) (M : Q) :
  max_unemp df = Some M ->
  (exists r, In r (rows df) /\ cell_at (columns df) unemp_col r = Num M)
  /\ forall r q,
       In r (rows df) -> cell_at (columns df) unemp_col r = Num q ->
       (q <= M)%Q.
Proof.
  intros H. apply max_spec in H. destruct H as [Hin Hle]. split.
  - apply In_valid_values, In_series in Hin. exact Hin.
  - intros r q Hr Hq. apply Hle, In_valid_values, In_series. eauto.
Qed.

(** ** The options of the selector *)

Lemma same_value_refl (c : cell) : same_value c c = true.
Proof.
  destruct c as [|s|q|d]; [reflexivity| | |].
  - apply (cell_eqb_refl (Str s)). reflexivity.
  - apply (cell_eqb_refl (Num q)). reflexivity.
  - apply (cell_eqb_refl (Timestamp d)). reflexivity.
Qed.

Lemma same_value_sym (a b : cell) : same_value a b = same_value b a.
Proof.
  destruct a, b; try reflexivity; unfold same_value; apply cell_eqb_sym.
Qed.

Lemma same_value_trans (a b c : cell) :
  same_value a b = true -> same_value b c = true -> same_value a c = true.
Proof.
  destruct a, b, c; simpl; try discriminate; try reflexivity.
  - apply (cell_eqb_trans (Str s) (Str s0) (Str s1)).
  - apply (cell_eqb_trans (Num q) (Num q0) (Num q1)).
  - apply (cell_eqb_trans (Timestamp d) (Timestamp d0) (Timestamp d1)).
Qed.

Lemma cell_eqb_same_value (a b : cell) :
  cell_eqb a b = true -> same_value a b = true.
Proof. destruct a, b; simpl; auto. Qed.

Lemma pd_unique_incl (l : list cell) (x : cell) :
  In x (pd_unique l) -> In x l.
Proof.
  induction l as [|c t IH]; simpl; [tauto|].
  intros [->|H]; [now left|]. right. apply IH.
  now apply filter_In in H.
Qed.

Lemma pd_unique_cover (l : list cell) (x : cell) :
  In x l -> exists k, In k (pd_unique l) /\ same_value x k = true.
Proof.
  induction l as [|c t IH]; simpl; [tauto|].
  intros [->|Hin].
  - exists x. split; [now left | apply same_value_refl].
  - destruct (IH Hin) as [k [Hk Hxk]].
    destruct (same_value k c) eqn:Hkc.
    + exists c. split; [now left | now apply same_value_trans with k].
    + exists k. split; [|assumption]. right. apply filter_In.
      now rewrite Hkc.
Qed.

Lemma pd_unique_distinct (l : list cell) :
  ForallOrdPairs (fun a b => same_value a b = false) (pd_unique l).
Proof.
  induction l as [|c t IH]; simpl; constructor.
  - apply Forall_forall. intros v Hv. apply filter_In in Hv.
    destruct Hv as [_ Hv]. rewrite same_value_sym. now apply negb_true_iff.
  - clear -IH. induction IH as [|a l Ha _ IH']; simpl; [constructor|].
    destruct (negb (same_value a c)); [|assumption].
    constructor; [|assumption].
    apply Forall_forall. intros v Hv. apply filter_In in Hv.
    rewrite Forall_forall in Ha. now apply Ha.
Qed.

Lemma distinct_perm (l l' : list cell) :
  Permutation l l' ->
  ForallOrdPairs (fun a b => same_value a b = false) l ->
  ForallOrdPairs (fun a b => same_value a b = false) l'.
Proof.
  induction 1 as [|x l l' Hp IH|x y l|l l' l'' _ IH1 _ IH2]; intros H.
  - constructor.
  - inversion H as [|? ? Hx Hl]; subst. constructor; [|now apply IH].
    now apply (Permutation_Forall Hp).
  - inversion H as [|? ? Hy Hl]; subst.
    inversion Hl as [|? ? Hx Hl']; subst.
    inversion Hy as [|? ? Hyx Hy']; subst.
    constructor; [constructor; [now rewrite same_value_sym | assumption]|].
    now constructor.
  - auto.
Qed.

Lemma distinct_unique (l : list cell) (a b : cell) :
  ForallOrdPairs (fun a b => same_value a b = false) l ->
  In a l -> In b l -> same_value a b = true -> a = b.
Proof.
  induction 1 as [|c l Hc _ IH]; simpl; [tauto|].
  rewrite Forall_forall in Hc.
  intros [->|Ha] [->|Hb] E; auto.
  - rewrite (Hc b Hb) in E. discriminate.
  - rewrite same_value_sym, (Hc a Ha) in E. discriminate.
Qed.

Lemma date_leb_total (a b : date) : date_leb a b = true \/ date_leb b a = true.
Proof.
  unfold date_leb.
  rewrite (Z.compare_antisym (year a) (year b)),
          (Z.compare_antisym (month a) (month b)).
  destruct (year a ?= year b)%Z; simpl; auto.
  destruct (month a ?= month b)%Z; simpl; auto.
  destruct (Z.leb_spec (day a) (day b)); [now left|].
  right. apply Z.leb_le. lia.
Qed.

Lemma cell_leb_total (a b : cell) : cell_leb a b = true \/ cell_leb b a = true.
Proof.
  destruct a, b; simpl; auto.
  - apply String.leb_total.
  - destruct (Qlt_le_dec q0 q) as [H|H].
    + right. apply Qle_bool_iff. now apply Qlt_le_weak.
    + left. now apply Qle_bool_iff.
  - apply date_leb_total.
Qed.

Lemma py_sorted_spec (l opts : list cell) :
  py_sorted l = Some opts ->
  Permutation opts l /\ Sorted (ordered cell_leb) opts.
Proof.
  unfold py_sorted. destruct l as [|c [|c' t]].
  - intros H. injection H as <-. split; constructor.
  - intros H. injection H as <-. split; [reflexivity | repeat constructor].
  - destruct (forallb (same_kind c) (c :: c' :: t)); [|discriminate].
    intros H. injection H as <-. split.
    + exact (sort_perm cell_leb (c :: c' :: t)).
    + exact (sort_sorted cell_leb cell_leb_total (c :: c' :: t)).
Qed.

(** X10. The options of the region selector, when line 102 computes
    them, are the Region values of the table in ascending order; every
    row has its Region among them; and no row is selected by two
    options. *)
Theorem region_options_partition (df : DataFrame) (opts : list cell) :
  region_options df = Some opts ->
  Sorted (ordered cell_leb) opts
  /\ (forall o, In o opts -> In o (series df "Region"))
  /\ (forall r, In r (rows df) ->
        exists o, In o opts
                  /\ same_value (cell_at (columns df) "Region" r) o = true)
  /\ forall r o1 o2,
       In o1 opts -> In o2 opts ->
       In r (rows (region_df df o1)) -> In r (rows (region_df df o2)) ->
       o1 = o2.
Proof.
  intros H. apply py_sorted_spec in H. destruct H as [Hperm Hsorted].
  split; [assumption|]. split; [|split].
  - intros o Ho. apply pd_unique_incl.
    now apply (Permutation_in _ Hperm).
  - intros r Hr.
    destruct (pd_unique_cover (series df "Region")
                              (cell_at (columns df) "Region" r))
      as [k [Hk Hrk]]; [apply In_series; eauto|].
    exists k. split; [|assumption].
    now apply (Permutation_in _ (Permutation_sym Hperm)).
  - intros r o1 o2 H1 H2 Hr1 Hr2.
    unfold region_df in Hr1, Hr2. cbn [rows mask_rows] in Hr1, Hr2.
    apply filter_In in Hr1, Hr2. destruct Hr1 as [_ E1], Hr2 as [_ E2].
    apply (distinct_unique opts); try assumption.
    + apply (distinct_perm _ _ (Permutation_sym Hperm)).
      apply pd_unique_distinct.
    + apply cell_eqb_same_value.
      apply cell_eqb_trans with (cell_at (columns df) "Region" r);
        [now rewrite cell_eqb_sym | assumption].
Qed.

Lemma loaded_region_notna (env : pandas)
        (parse_float : string -> option Q)
      (raw df : DataFrame) :
  load_data env parse_float raw = Ok df ->
  columns df <> []
  /\ forall r, In r (rows df) ->
               isna (cell_at (columns df) "Region" r) = false.
Proof.
  intros H.
  destruct (load_data_rows _ _ _ _ H)
    as [m [clean [_ [HR [_ [_ [_ [Hrows Hclean]]]]]]]].
  split; [intros E; rewrite E in HR; contradiction|].
  intros r' Hr'. rewrite Hrows in Hr'. apply in_map_iff in Hr'.
  destruct Hr' as [r [<- Hr]]. apply filter_In in Hr. destruct Hr as [_ Hk].
  destruct target_not_fixed as [_ HtR].
  destruct (Hclean r) as [_ [_ Hn]].
  rewrite (Hn "Region") by (auto; congruence).
  unfold kept, notna in Hk. apply andb_true_iff in Hk.
  now apply negb_true_iff.
Qed.

(** X11. On a loaded table every option the selector offers selects at
    least one row, so picking an option shows the chart; the warning is
    shown exactly when there is nothing to pick, which is when the table
    has no row. *)
Theorem selected_region_has_rows (env : pandas)
        (parse_float : string -> option Q)
        (raw df : DataFrame) (opts : list cell) :
  load_data env parse_float raw = Ok df ->
  region_options df = Some opts ->
  (forall pick,
     pick < List.length opts ->
     rows (region_df df (selectbox opts pick)) <> []
     /\ region_trend df (selectbox opts pick)
        = StPlotlyChart
            (add_lockdown_vline
               (px_line (region_df df (selectbox opts pick))
                        "Date" unemp_col true)
               "2020-03-01"))
  /\ (opts = [] <-> rows df = [])
  /\ (opts = [] ->
      forall pick,
        region_trend df (selectbox opts pick)
        = StWarning "No data available for the selected region.").
Proof.
  intros Hload Hopts.
  destruct (loaded_region_notna _ _ _ _ Hload) as [Hcols Hna].
  apply py_sorted_spec in Hopts. destruct Hopts as [Hperm _].
  assert (Htrend : forall region,
             rows (region_df df region) <> [] ->
             region_trend df region
             = StPlotlyChart
                 (add_lockdown_vline
                    (px_line (region_df df region) "Date" unemp_col true)
                    "2020-03-01")).
  { intros region Hne. unfold region_trend, empty. cbv zeta.
    change (columns (region_df df region)) with (columns df).
    destruct (columns df); [congruence|].
    destruct (rows (region_df df region)); [congruence | reflexivity]. }
  split; [|split].
  - intros pick Hpick.
    assert (Ho : In (selectbox opts pick) opts) by now apply nth_In.
    apply (Permutation_in _ Hperm), pd_unique_incl, In_series in Ho.
    destruct Ho as [r [Hr Hc]].
    assert (Hne : rows (region_df df (selectbox opts pick)) <> []).
    { assert (Hin : In r (rows (region_df df (selectbox opts pick)))).
      { unfold region_df. cbn [rows mask_rows]. apply filter_In.
        split; [assumption|]. rewrite Hc. apply cell_eqb_refl.
        rewrite <- Hc. now apply Hna. }
      intros E. rewrite E in Hin. contradiction. }
    split; [assumption | now apply Htrend].
  - split.
    + intros ->. apply Permutation_nil in Hperm.
      destruct (rows df) as [|r rs] eqn:Er; [reflexivity|].
      unfold series in Hperm. rewrite Er in Hperm. discriminate.
    + intros Er. unfold series in Hperm. rewrite Er in Hperm.
      now apply Permutation_sym, Permutation_nil in Hperm.
  - intros -> pick. unfold selectbox, region_trend, empty. cbv zeta.
    replace (rows (region_df df (nth pick [] NA))) with (@nil (list cell)).
    + cbn [List.length Nat.eqb]. now rewrite orb_true_r.
    + unfold region_df. cbn [rows mask_rows]. symmetry.
      replace (nth pick [] NA) with NA by (destruct pick; reflexivity).
      assert (HNA : forall c, cell_eqb c NA = false)
        by (intros []; reflexivity).
      induction (rows df) as [|r rs IH]; cbn [filter]; [reflexivity|].
      rewrite HNA. apply IH. intros r0 Hr0. apply Hna. now right.
Qed.

(** * Further properties of the cache and of the header *)

Lemma cached_hit (env : nat -> pandas)
        (parse_float : string -> option Q) (s : session)
      (df : DataFrame) :
  cache s = Some df -> cached_load_data env parse_float s = (Ok df, s).
Proof. intros H. unfold cached_load_data. now rewrite H. Qed.

Lemma cached_miss_raise (env : nat -> pandas)
        (parse_float : string -> option Q) (s : session)
      (e : exn) :
  cache s = None -> load_data (env (reads s)) parse_float (file s) = Raise e ->
  cached_load_data env parse_float s
  = (Raise e, mkSession (file s) None (S (reads s))).
Proof.
  intros Hc Hl. unfold cached_load_data, read_csv. rewrite Hc, Hl.
  reflexivity.
Qed.

Lemma load_data_raise_anywhere (env1 env2 : pandas)
      (parse_float : string -> option Q) (raw : DataFrame) (e : exn) :
  load_data env1 parse_float raw = Raise e ->
  load_data env2 parse_float raw = Raise e.
Proof.
  pose proof (load_data_by_header env1 parse_float raw) as H1.
  pose proof (load_data_by_header env2 parse_float raw) as H2.
  destruct (rate_label (columns (tidy raw))); [|congruence].
  destruct (negb (PyStr.mem "Date" (labels raw))); [congruence|].
  destruct (negb (PyStr.mem "Region" (labels raw))); [congruence|].
  destruct H1 as [out H1]. congruence.
Qed.

Lemma reruns_failing (env : nat -> pandas)
      (parse_float : string -> option Q) (e : exn) (n : nat) :
  forall s,
    cache s = None ->
    (forall k, load_data (env k) parse_float (file s) = Raise e) ->
    reruns env parse_float n s = mkSession (file s) None (reads s + n).
Proof.
  induction n as [|n IH]; intros s Hc Hl; cbn [reruns].
  - destruct s as [f c r]; cbn in *. subst c. f_equal. lia.
  - rewrite (cached_miss_raise _ _ _ _ Hc (Hl (reads s))). cbn [snd].
    rewrite IH; [|reflexivity | exact Hl]. cbn [file reads]. f_equal. lia.
Qed.

(** X12. A load that raises is not cached: the session keeps an empty
    cache, the file has been read once more, and every later evaluation
    reads the file again and raises the same exception. *)
Theorem failed_load_is_not_cached (env : nat -> pandas)
        (parse_float : string -> option Q)
        (s s1 : session) (e : exn) :
  cached_load_data env parse_float s = (Raise e, s1) ->
  cache s = None
  /\ load_data (env (reads s)) parse_float (file s) = Raise e
  /\ s1 = mkSession (file s) None (S (reads s))
  /\ forall n,
       cache (reruns env parse_float n s) = None
       /\ reads (reruns env parse_float n s) = reads s + n
       /\ fst (cached_load_data env parse_float (reruns env parse_float n s))
          = Raise e.
Proof.
  intros H. unfold cached_load_data, read_csv in H.
  destruct (cache s) as [c|] eqn:Ec; [discriminate|].
  destruct (load_data (env (reads s)) parse_float (file s)) as [d|e'] eqn:El;
    [discriminate|].
  injection H as <- <-. cbn [file cache reads].
  split; [reflexivity|]. split; [reflexivity|]. split; [reflexivity|].
  assert (Hall : forall k, load_data (env k) parse_float (file s) = Raise e')
    by (intros k; exact (load_data_raise_anywhere _ _ _ _ _ El)).
  intros n. rewrite (reruns_failing _ _ _ n s Ec Hall). cbn [cache reads].
  split; [reflexivity|]. split; [reflexivity|].
  rewrite (cached_miss_raise env parse_float _ e');
    [reflexivity | reflexivity | apply Hall].
Qed.

(** X13. After a load that returned a table, any number of further
    evaluations leave the session as it is, the read count with it, and
    each returns that table. *)
Theorem loaded_table_survives_reruns (env : nat -> pandas)
        (parse_float : string -> option Q)
        (s s1 : session) (df : DataFrame) :
  cached_load_data env parse_float s = (Ok df, s1) ->
  forall n,
    reruns env parse_float n s1 = s1
    /\ cached_load_data env parse_float (reruns env parse_float n s1)
       = (Ok df, s1).
Proof.
  intros H.
  assert (Hc : cache s1 = Some df).
  { unfold cached_load_data, read_csv in H.
    destruct (cache s) as [c|] eqn:Ec.
    - injection H as <- <-. exact Ec.
    - destruct (load_data (env (reads s)) parse_float (file s));
        [|discriminate].
      injection H as <- <-. reflexivity. }
  assert (Hn : forall n, reruns env parse_float n s1 = s1).
  { induction n as [|n IH]; cbn [reruns]; [reflexivity|].
    now rewrite (cached_hit _ _ _ _ Hc). }
  intros n. split; [apply Hn|]. rewrite Hn. now apply cached_hit.
Qed.

Lemma loc_mask_no_duplicate {A} (cols : list string) :
  forall (seen : list string) (l : list A),
    NoDup cols -> (forall x, In x cols -> ~ In x seen) ->
    List.length l <= List.length cols ->
    loc_mask (map negb (duplicated_from seen cols)) l = l.
Proof.
  induction cols as [|c cs IH]; intros seen l Hnd Hdis Hlen.
  - destruct l; [reflexivity | simpl in Hlen; lia].
  - cbn [duplicated_from map].
    assert (Hm : PyStr.mem c seen = false)
      by (apply mem_false, Hdis; now left).
    rewrite Hm. cbn [negb loc_mask].
    destruct l as [|x xs]; [reflexivity|]. f_equal.
    inversion Hnd as [|? ? Hc Hnd']; subst.
    apply IH; [assumption| |simpl in Hlen; lia].
    intros y Hy [<-|Hs]; [contradiction|].
    apply (Hdis y); [now right | assumption].
Qed.

(** X14. A header whose trimmed labels are pairwise distinct loses
    nothing at line 21: on a rectangular frame the tidied frame has every
    trimmed label and every row as it was. *)
Theorem tidy_keeps_distinct_header (raw : DataFrame) :
  NoDup (labels raw) ->
  (forall r, In r (rows raw) ->
             List.length r <= List.length (columns raw)) ->
  tidy raw = mkDF (labels raw) (rows raw).
Proof.
  intros Hnd Hrect. unfold tidy, loc_columns, duplicated.
  cbn [columns rows set_columns]. f_equal.
  - now apply loc_mask_no_duplicate.
  - rewrite <- (map_id (rows raw)) at 2. apply map_ext_in.
    intros r Hr. apply loc_mask_no_duplicate; [assumption|auto|].
    unfold labels. rewrite length_map. now apply Hrect.
Qed.

(** ** These statements on the sample inputs *)

Example region_options_sample :
  region_options Sample.cleaned = Some [Str "Assam"; Str "Bihar"; Str "Goa"].
Proof. reflexivity. Qed.

Example load_outcomes_sample :
  load_data Sample.env Decimal.parse (mkDF ["Region"; "Rate"] [])
  = Raise (KeyError ["Unemployment column not found in CSV"])
  /\ load_data Sample.env Decimal.parse
               (mkDF ["Region"; "Unemployment Rate"] [])
     = Raise (KeyError ["Date"])
  /\ load_data Sample.env Decimal.parse (mkDF ["Date "; "Unemployment Rate"] [])
     = Raise (KeyError ["Region"]).
Proof. repeat split. Qed.

Lemma load_data_passthrough_witness :
  load_data Sample.env Decimal.parse Sample.raw = Ok Sample.cleaned
  /\ List.length (rows Sample.cleaned) <= List.length (rows Sample.raw).
Proof.
  assert (H : load_data Sample.env Decimal.parse Sample.raw = Ok Sample.cleaned)
    by (vm_compute; reflexivity).
  split; [exact H|].
  destruct (load_data_passthrough Sample.env Decimal.parse _ _ H)
    as [m [clean [_ [_ [_ [Hlen _]]]]]].
  exact Hlen.
Defined.

Lemma load_data_rate_is_numeric_witness :
  load_data Sample.env Decimal.parse Sample.raw = Ok Sample.cleaned
  /\ Forall (fun r => cell_at (columns Sample.cleaned) target r = NA
                      \/ exists q,
                           cell_at (columns Sample.cleaned) target r = Num q)
            (rows Sample.cleaned).
Proof.
  assert (H : load_data Sample.env Decimal.parse Sample.raw = Ok Sample.cleaned)
    by (vm_compute; reflexivity).
  split; [exact H|].
  exact (load_data_rate_is_numeric Sample.env Decimal.parse _ _ H).
Defined.

Lemma load_data_labels_trimmed_witness :
  load_data Sample.env Decimal.parse Sample.raw = Ok Sample.cleaned
  /\ Forall (fun c => PyStr.strip c = c) (columns Sample.cleaned).
Proof.
  assert (H : load_data Sample.env Decimal.parse Sample.raw = Ok Sample.cleaned)
    by (vm_compute; reflexivity).
  split; [exact H|].
  exact (load_data_labels_trimmed Sample.env Decimal.parse _ _ H).
Defined.

Lemma load_data_dates_in_calendar_witness :
  load_data Sample.env Decimal.parse Sample.raw = Ok Sample.cleaned
  /\ Forall (fun r => exists d,
               cell_at (columns Sample.cleaned) "Date" r = Timestamp d
               /\ (1 <= year d <= 9999)%Z
               /\ (1 <= month d <= 12)%Z
               /\ (1 <= day d
                   <= Strptime.days_in_month (year d) (month d))%Z)
            (rows Sample.cleaned).
Proof.
  assert (H : load_data Sample.env Decimal.parse Sample.raw = Ok Sample.cleaned)
    by (vm_compute; reflexivity).
  split; [exact H|].
  apply (load_data_dates_in_calendar Sample.env Decimal.parse _ _ H).
  intros r d Hr. simpl in Hr.
  repeat (destruct Hr as [<-|Hr]; [vm_compute; discriminate|]).
  contradiction.
Defined.

Lemma strptime_reads_back_witness :
  Strptime.valid_date 2020 2 29 = true
  /\ Strptime.ns_range (mkDate 2020 2 29) = true
  /\ to_datetime Sample.env (Str (dmy_text (mkDate 2020 2 29)))
     = Timestamp (mkDate 2020 2 29).
Proof.
  split; [reflexivity|]. split; [reflexivity|].
  exact (strptime_reads_back Sample.env 2020 2 29 eq_refl eq_refl).
Defined.

Lemma max_unemp_is_attained_witness :
  max_unemp Sample.cleaned = Some (1025 # 100)%Q
  /\ exists r,
       In r (rows Sample.cleaned)
       /\ cell_at (columns Sample.cleaned) unemp_col r = Num (1025 # 100).
Proof.
  assert (H : max_unemp Sample.cleaned = Some (1025 # 100)%Q)
    by (vm_compute; reflexivity).
  split; [exact H|].
  exact (proj1 (max_unemp_is_attained Sample.cleaned _ H)).
Defined.

Lemma region_options_partition_witness :
  region_options Sample.cleaned = Some [Str "Assam"; Str "Bihar"; Str "Goa"]
  /\ Sorted (ordered cell_leb) [Str "Assam"; Str "Bihar"; Str "Goa"].
Proof.
  assert (H : region_options Sample.cleaned
              = Some [Str "Assam"; Str "Bihar"; Str "Goa"])
    by reflexivity.
  split; [exact H|].
  exact (proj1 (region_options_partition Sample.cleaned _ H)).
Defined.

Lemma selected_region_has_rows_witness :
  load_data Sample.env Decimal.parse Sample.raw = Ok Sample.cleaned
  /\ region_options Sample.cleaned
     = Some [Str "Assam"; Str "Bihar"; Str "Goa"]
  /\ rows (region_df Sample.cleaned
                     (selectbox [Str "Assam"; Str "Bihar"; Str "Goa"] 2))
     <> [].
Proof.
  assert (H : load_data Sample.env Decimal.parse Sample.raw = Ok Sample.cleaned)
    by (vm_compute; reflexivity).
  assert (Ho : region_options Sample.cleaned
               = Some [Str "Assam"; Str "Bihar"; Str "Goa"])
    by reflexivity.
  split; [exact H|]. split; [exact Ho|].
  destruct (selected_region_has_rows Sample.env Decimal.parse _ _ _ H Ho)
    as [Hp _].
  apply (Hp 2). simpl. lia.
Defined.

Lemma failed_load_is_not_cached_witness :
  cached_load_data Sample.envs Decimal.parse
                   (mkSession Sample.no_rate None 0)
  = (Raise (KeyError ["Unemployment column not found in CSV"]),
     mkSession Sample.no_rate None 1)
  /\ reads (reruns Sample.envs Decimal.parse 3
                   (mkSession Sample.no_rate None 0)) = 0 + 3.
Proof.
  assert (H : cached_load_data Sample.envs Decimal.parse
                               (mkSession Sample.no_rate None 0)
              = (Raise (KeyError ["Unemployment column not found in CSV"]),
                 mkSession Sample.no_rate None 1))
    by (vm_compute; reflexivity).
  split; [exact H|].
  destruct (failed_load_is_not_cached Sample.envs Decimal.parse _ _ _ H)
    as [_ [_ [_ Hn]]].
  exact (proj1 (proj2 (Hn 3))).
Defined.

Lemma loaded_table_survives_reruns_witness :
  cached_load_data Sample.envs Decimal.parse Sample.fresh
  = (Ok Sample.cleaned, Sample.warm)
  /\ reruns Sample.envs Decimal.parse 5 Sample.warm = Sample.warm.
Proof.
  assert (H : cached_load_data Sample.envs Decimal.parse Sample.fresh
              = (Ok Sample.cleaned, Sample.warm))
    by (vm_compute; reflexivity).
  split; [exact H|].
  exact (proj1 (loaded_table_survives_reruns
                  Sample.envs Decimal.parse _ _ _ H 5)).
Defined.

Lemma tidy_keeps_distinct_header_witness :
  tidy Sample.exact = mkDF (labels Sample.exact) (rows Sample.exact).
Proof.
  apply tidy_keeps_distinct_header.
  - vm_compute. repeat constructor; simpl; intuition discriminate.
  - intros r Hr. simpl in Hr. destruct Hr as [<-|[]]. simpl. lia.
Defined.

(** ** The fallback search *)

(** X15. The search of line 26 finds the labels in which
    "Unemployment Rate" occurs as a run of consecutive characters, capitals
    and the blank included, and lists them in header order; a label found
    is never "Date" or "Region". *)
Theorem matches_are_substring_hits (cols : list string) :
  (forall c, In c (matches cols)
             <-> In c cols
                 /\ exists a b, c = (a ++ "Unemployment Rate" ++ b)%string)
  /\ (forall l1 l2, cols = l1 ++ l2 -> matches cols = matches l1 ++ matches l2)
  /\ forall c, In c (matches cols) -> c <> "Date" /\ c <> "Region".
Proof.
  split; [|split].
  - intros c. unfold matches. rewrite filter_In, contains_spec. tauto.
  - intros l1 l2 ->. unfold matches. apply filter_app.
  - intros c Hc. unfold matches in Hc. apply filter_In in Hc.
    now apply match_not_fixed.
Qed.

(** ** The revised statements on the sample inputs *)

Example load_dated_now :
  load_data Sample.env Decimal.parse Sample.dated_now
  = Ok Sample.dated_now_loaded.
Proof. vm_compute. reflexivity. Qed.


Lemma load_data_rename_precedence_witness :
  stable_rate_name (tidy Sample.exact) = Ok (tidy Sample.exact)
  /\ exists k df1,
       index_of "Estimated Unemployment Rate (%) original"
                (columns (tidy Sample.raw)) = Some k
       /\ stable_rate_name (tidy Sample.raw) = Ok df1
       /\ nth_error (columns df1) k = Some target
       /\ exists out,
            load_data Sample.env Decimal.parse Sample.raw = Ok out
            /\ columns out = columns df1.
Proof.
  split.
  - exact (proj1 (proj1 (load_data_rename_precedence
                           Sample.env Decimal.parse Sample.exact) eq_refl)).
  - destruct (proj2 (load_data_rename_precedence
                       Sample.env Decimal.parse Sample.raw) eq_refl
                    "Estimated Unemployment Rate (%) original"
                    ["Unemployment Rate 2"] eq_refl)
      as [k [df1 [Hk [Hs [_ [Hn [_ [_ [Hex Hcol]]]]]]]]].
    exists k, df1. split; [exact Hk|]. split; [exact Hs|].
    split; [exact Hn|].
    destruct Hex as [out Hout]; [vm_compute; tauto | vm_compute; tauto|].
    exists out. split; [exact Hout | exact (Hcol out Hout)].
Defined.

Lemma load_data_keeps_numbered_duplicate_witness :
  exists out,
    load_data Sample.env Decimal.parse Sample.as_read = Ok out
    /\ columns out = columns Sample.as_read
    /\ In "Region.1" (columns out)
    /\ List.length (columns out) = 9.
Proof.
  exact (proj1 (load_data_keeps_numbered_duplicate Sample.env Decimal.parse)).
Defined.
